(** * Poetry interpreter locator and activation-command provider

    A shallow embedding of
      - [src/interpreter/locators/services/poetryService.ts]
      - [src/common/terminal/environmentActivationProviders/poetryActivationProvider.ts]
    together with the properties the specification states about them.

    The two classes are glue over injected collaborators (file system,
    process factory, workspace, logger, configuration, interpreter
    helper).  The collaborators are records of functions; the methods
    of the two classes are written in a small effect monad that keeps a
    chronological journal of every call made to a collaborator and that
    distinguishes a resolved promise from a rejected one.

    Conventions of the model:
      - a collaborator that returns a promise for a process, a process
        result or an interpreter may reject; property reads, the file
        existence check, the logger and the message box return normally;
      - a rejection carries an [Error] object or a string, the two shapes
        [error.message || error] is written for;
      - strings are sequences of UTF-16 code units, and [path] is Node's
        POSIX implementation. *)

From Stdlib Require Import String Ascii.
From stdpp Require Import gmap list strings.

(* ===================================================================== *)
(** ** JavaScript strings, truthiness and thrown values *)
(* ===================================================================== *)

Module Js.

(** A JavaScript string is a sequence of UTF-16 code units. *)
Definition jsstring : Type := list N.

(** Source literals are ASCII; [js] reads one off a Rocq string. *)
Definition js (s : string) : jsstring :=
  map N_of_ascii (list_ascii_of_string s).

(** [!s] is true exactly for the empty string. *)
Definition truthy (s : jsstring) : bool :=
  match s with [] => false | _ :: _ => true end.

(** [!v] for a value of type [string | undefined]. *)
Definition truthy_opt (v : option jsstring) : bool :=
  match v with Some s => truthy s | None => false end.

(** ECMAScript [WhiteSpace] and [LineTerminator] code units, the ones
    [String.prototype.trim] strips. *)
Definition isWhiteSpace (c : N) : bool :=
  ((9 <=? c) && (c <=? 13) || (c =? 32) || (c =? 160) || (c =? 5760)
   || (8192 <=? c) && (c <=? 8202) || (c =? 8232) || (c =? 8233)
   || (c =? 8239) || (c =? 8287) || (c =? 12288) || (c =? 65279))%N.

Fixpoint trimStart (s : jsstring) : jsstring :=
  match s with
  | c :: s' => if isWhiteSpace c then trimStart s' else s
  | [] => []
  end.

Definition trimEnd (s : jsstring) : jsstring := rev (trimStart (rev s)).

Definition trim (s : jsstring) : jsstring := trimEnd (trimStart s).

Fixpoint startsWith (s sub : jsstring) : bool :=
  match sub, s with
  | [], _ => true
  | _ :: _, [] => false
  | c :: sub', d :: s' => (c =? d)%N && startsWith s' sub'
  end.

Fixpoint indexOf_from (s sub : jsstring) (i : Z) : Z :=
  if startsWith s sub then i
  else match s with
       | [] => (-1)%Z
       | _ :: s' => indexOf_from s' sub (i + 1)%Z
       end.

(** [s.indexOf(sub)]: position of the first occurrence, [-1] if none. *)
Definition indexOf (s sub : jsstring) : Z := indexOf_from s sub 0.

(** [sub] occurs somewhere inside [s]. *)
Definition contains (s sub : jsstring) : Prop :=
  exists pre post, s = pre ++ sub ++ post.

(** What a [throw] or a rejected promise carries: an [Error] object
    (with its [name] and [message]) or a primitive string. *)
Inductive JsError : Type :=
| ErrorObject (name message : jsstring)
| ThrownString (s : jsstring).

(** [new Error(msg)]. *)
Definition newError (msg : jsstring) : JsError :=
  ErrorObject (js "Error") msg.

(** [Error.prototype.toString]. *)
Definition errorToString (name message : jsstring) : jsstring :=
  match name, message with
  | [], _ => message
  | _, [] => name
  | _, _ => name ++ js ": " ++ message
  end.

(** The text that [`${error.message || error}`] interpolates. *)
Definition errorMessageText (error : JsError) : jsstring :=
  match error with
  | ErrorObject name message =>
      if truthy message then message else errorToString name message
  | ThrownString s => s
  end.

(** The [TypeError] raised by a property access on [undefined]; the
    wording of the message belongs to the engine. *)
Definition typeErrorOnUndefined (property : string) : JsError :=
  ErrorObject (js "TypeError")
    (js "Cannot read property '" ++ js property ++ js "' of undefined").

End Js.

Import Js.

(* ===================================================================== *)
(** ** Node's [path] module, POSIX flavour *)
(* ===================================================================== *)

Module NodePath.

Definition CHAR_FORWARD_SLASH : N := 47.
Definition CHAR_DOT : N := 46.

Definition sep : jsstring := [CHAR_FORWARD_SLASH].

(** The segments of a path between separators, empty ones included. *)
Fixpoint segments (p : jsstring) : list jsstring :=
  match p with
  | [] => [[]]
  | c :: p' =>
      if (c =? CHAR_FORWARD_SLASH)%N then [] :: segments p'
      else match segments p' with
           | seg :: rest => (c :: seg) :: rest
           | [] => [[c]]
           end
  end.

Definition isDot (seg : jsstring) : bool :=
  match seg with [c] => (c =? CHAR_DOT)%N | _ => false end.

Definition isDotDot (seg : jsstring) : bool :=
  match seg with
  | [c; d] => (c =? CHAR_DOT)%N && (d =? CHAR_DOT)%N
  | _ => false
  end.

(** One step of [normalizeString]: [res] holds the segments kept so
    far, most recent first. *)
Definition normalizeStep (allowAboveRoot : bool)
    (res : list jsstring) (seg : jsstring) : list jsstring :=
  if truthy seg then
    if isDot seg then res
    else if isDotDot seg then
      match res with
      | last :: res' =>
          if isDotDot last
          then (if allowAboveRoot then seg :: res else res)
          else res'
      | [] => if allowAboveRoot then [seg] else []
      end
    else seg :: res
  else res.

Fixpoint joinWith (separator : jsstring) (parts : list jsstring) : jsstring :=
  match parts with
  | [] => []
  | [x] => x
  | x :: rest => x ++ separator ++ joinWith separator rest
  end.

Definition normalizeString (p : jsstring) (allowAboveRoot : bool) : jsstring :=
  joinWith sep (rev (fold_left (normalizeStep allowAboveRoot) (segments p) [])).

Definition isAbsolute (p : jsstring) : bool :=
  match p with c :: _ => (c =? CHAR_FORWARD_SLASH)%N | [] => false end.

Definition hasTrailingSeparator (p : jsstring) : bool :=
  match rev p with c :: _ => (c =? CHAR_FORWARD_SLASH)%N | [] => false end.

Definition normalize (p : jsstring) : jsstring :=
  match p with
  | [] => js "."
  | _ :: _ =>
      let absolute := isAbsolute p in
      let trailingSeparator := hasTrailingSeparator p in
      let q := normalizeString p (negb absolute) in
      match q with
      | [] =>
          if absolute then js "/"
          else if trailingSeparator then js "./" else js "."
      | _ :: _ =>
          let q' := if trailingSeparator then q ++ sep else q in
          if absolute then sep ++ q' else q'
      end
  end.

(** [path.join(...args)]. *)
Definition join (args : list jsstring) : jsstring :=
  match filter (fun a => truthy a = true) args with
  | [] => js "."
  | parts => normalize (joinWith sep parts)
  end.

Fixpoint dropSlashes (s : jsstring) : jsstring :=
  match s with
  | c :: s' => if (c =? CHAR_FORWARD_SLASH)%N then dropSlashes s' else s
  | [] => []
  end.

Fixpoint takeSegment (s : jsstring) : jsstring :=
  match s with
  | c :: s' => if (c =? CHAR_FORWARD_SLASH)%N then [] else c :: takeSegment s'
  | [] => []
  end.

(** [path.basename(p)]: the last portion of [p], trailing separators
    ignored. *)
Definition basename (p : jsstring) : jsstring :=
  rev (takeSegment (dropSlashes (rev p))).

End NodePath.

(* ===================================================================== *)
(** ** Data exchanged with the collaborators *)
(* ===================================================================== *)

(** Modelled from the spec: the declaration of [InterpreterType] lives in
    [interpreter/contracts], outside the given sources; the spec calls it a
    "type tag (one of several interpreter kinds)".  The code only ever
    singles out [Poetry]. *)
Inductive InterpreterType : Type :=
| Unknown | Conda | VirtualEnv | Pipenv | Pyenv | Venv | Poetry.

#[global] Instance InterpreterType_eq_dec : EqDecision InterpreterType.
Proof. solve_decision. Defined.

(** Property values of an interpreter object.  [VOpaque] stands for any
    value the two classes pass along without looking at it. *)
Inductive JsValue : Type :=
| VString (s : jsstring)
| VKind (k : InterpreterType)
| VBoolean (b : bool)
| VOpaque (id : N).

#[global] Instance JsValue_eq_dec : EqDecision JsValue.
Proof. solve_decision. Defined.

(** A [PythonInterpreter] (or a [Partial] of it) is a JavaScript object:
    a finite map from property names to values. *)
Abbreviation PythonInterpreter := (gmap string JsValue).

(** [coc.nvim]'s [Uri], as far as the two classes build and read one. *)
Inductive Uri : Type :=
| UriFile (fsPath : jsstring)
| UriParse (text : jsstring).

Record WorkspaceFolder : Type := { uri : jsstring; name : jsstring }.

(** The value a process execution resolves to.  Both streams are read
    defensively by the code, so both may be missing. *)
Record ExecutionResult : Type :=
  { stdout : option jsstring; stderr : option jsstring }.

Inductive MessageType : Type := MsgError | MsgWarning | MsgMore.

(** Settled state of a promise. *)
Inductive Outcome (A : Type) : Type :=
| Resolved (value : A)
| Rejected (reason : JsError).
Arguments Resolved {A} value.
Arguments Rejected {A} reason.

(** Calls made to collaborators, in the order they happen. *)
Inductive Event : Type :=
| FileExists (filePath : jsstring)
| CreateProcessService (resource : Uri)
| Exec (file : jsstring) (args : list jsstring) (cwd : jsstring)
| LogWarning (message : jsstring) (ex : option JsError)
| TraceError (message : jsstring) (ex : JsError)
| ShowMessage (message : jsstring) (messageType : MessageType)
| GetInterpreterInformation (pythonPath : jsstring)
| HasInterpretersResolve (value : bool)
| GetActiveInterpreter (resource : option Uri)
| GetInterpreterDetails (pythonPath : jsstring).

Definition isExec (ev : Event) : bool :=
  match ev with Exec _ _ _ => true | _ => false end.

Definition isShowMessage (ev : Event) : bool :=
  match ev with ShowMessage _ _ => true | _ => false end.

Definition isWarningShown (ev : Event) : bool :=
  match ev with ShowMessage _ MsgWarning => true | _ => false end.

Definition count (p : Event -> bool) (journal : list Event) : nat :=
  length (List.filter p journal).

(* ===================================================================== *)
(** ** The effect monad: a journal of calls and a settled outcome *)
(* ===================================================================== *)

Module Eff.

Definition t (A : Type) : Type := list Event * Outcome A.

Definition journal {A} (m : t A) : list Event := fst m.
Definition outcome {A} (m : t A) : Outcome A := snd m.

Definition ret {A} (a : A) : t A := ([], Resolved a).

Definition throw {A} (e : JsError) : t A := ([], Rejected e).

Definition emit (ev : Event) : t unit := ([ev], Resolved tt).

(** [await] of a collaborator's promise: the call is recorded, its
    outcome is the collaborator's. *)
Definition call {A} (ev : Event) (result : Outcome A) : t A := ([ev], result).

Definition bind {A B} (m : t A) (k : A -> t B) : t B :=
  match m with
  | (j, Resolved a) => let '(j', r) := k a in (j ++ j', r)
  | (j, Rejected e) => (j, Rejected e)
  end.

(** [try { m } catch (error) { handler error }]. *)
Definition try_catch {A} (m : t A) (handler : JsError -> t A) : t A :=
  match m with
  | (j, Rejected e) => let '(j', r) := handler e in (j ++ j', r)
  | (j, Resolved a) => (j, Resolved a)
  end.

(** [promise.then(f)] with a pure [f]. *)
Definition then_ {A B} (m : t A) (f : A -> B) : t B :=
  bind m (fun a => ret (f a)).

End Eff.

Declare Scope eff_scope.
Delimit Scope eff_scope with eff.
Notation "'let*' x ':=' m 'in' k" := (Eff.bind m (fun x => k))
  (at level 10, x name, m at level 100, k at level 200) : eff_scope.
Local Open Scope eff_scope.

(* ===================================================================== *)
(** ** Collaborator interfaces *)
(* ===================================================================== *)

(** Modelled from the spec: [IFileSystem] is declared outside the given
    sources; the spec says existence of a lock file and of a path are
    boolean predicates. *)
Record IFileSystem : Type :=
  { fileExists : jsstring -> bool }.

Record IProcessService : Type :=
  { exec : jsstring -> list jsstring -> jsstring -> Outcome (option ExecutionResult) }.

Record IProcessServiceFactory : Type :=
  { create : Uri -> Outcome IProcessService }.

Record IInterpreterHelper : Type :=
  { getInterpreterInformation : jsstring -> Outcome (option PythonInterpreter) }.

Record IWorkspaceService : Type :=
  { getWorkspaceFolder : Uri -> option WorkspaceFolder;
    rootPath : option jsstring }.

Record IConfigurationService : Type :=
  { poetryPath : jsstring }.

Record IPlatformService : Type :=
  { pathVariableName : jsstring }.

Record ICurrentProcess : Type :=
  { env : gmap jsstring jsstring }.

(** Library functions of the host that the code calls and whose results
    it only passes along. *)
Record Host : Type :=
  { fsPathOfParsedUri : jsstring -> jsstring;
    jsonStringify : gmap jsstring (option jsstring) -> jsstring }.

Record IServiceContainer : Type :=
  { helper : IInterpreterHelper;
    processServiceFactory : IProcessServiceFactory;
    workspace : IWorkspaceService;
    fs : IFileSystem;
    configService : IConfigurationService;
    platformService : IPlatformService;
    currentProc : ICurrentProcess;
    host : Host }.

(* ===================================================================== *)
(** ** [PoetryService] *)
(* ===================================================================== *)

Module PoetryService.
Section Methods.

Variable serviceContainer : IServiceContainer.

(** The logging and notification sinks only record what they are given. *)
Definition logger_logWarning (message : jsstring) (ex : option JsError) : Eff.t unit :=
  Eff.emit (LogWarning message ex).

Definition traceError (message : jsstring) (ex : JsError) : Eff.t unit :=
  Eff.emit (TraceError message ex).

Definition workspace_showMessage (message : jsstring) (messageType : MessageType)
  : Eff.t unit :=
  Eff.emit (ShowMessage message messageType).

Definition fs_fileExists (filePath : jsstring) : Eff.t bool :=
  Eff.call (FileExists filePath)
           (Resolved (fileExists (fs serviceContainer) filePath)).

Definition processServiceFactory_create (resource : Uri) : Eff.t IProcessService :=
  Eff.call (CreateProcessService resource)
           (create (processServiceFactory serviceContainer) resource).

Definition processService_exec (processService : IProcessService)
    (file : jsstring) (args : list jsstring) (cwd : jsstring)
  : Eff.t (option ExecutionResult) :=
  Eff.call (Exec file args cwd) (exec processService file args cwd).

Definition helper_getInterpreterInformation (pythonPath : jsstring)
  : Eff.t (option PythonInterpreter) :=
  Eff.call (GetInterpreterInformation pythonPath)
           (getInterpreterInformation (helper serviceContainer) pythonPath).

(** [get executable()] *)
Definition executable : jsstring := poetryPath (configService serviceContainer).

(** [result.stdout ? result.stdout.trim() : ''] (and the same for stderr). *)
Definition trimmedOrEmpty (stream : option jsstring) : jsstring :=
  match stream with
  | Some s => if truthy s then trim s else []
  | None => []
  end.

(** [result.stdout.trim()], with no guard on [result.stdout]. *)
Definition trimUnguarded (stream : option jsstring) : Eff.t jsstring :=
  match stream with
  | Some s => Eff.ret (trim s)
  | None => Eff.throw (typeErrorOnUndefined "trim")
  end.

Definition invokePoetryWarning (errorMessage : jsstring) : jsstring :=
  js "Workspace contains pipfile but attempt to run 'poetry env info -p' failed with '"
  ++ errorMessage ++ js "'. Make sure poetry is on the PATH.".

Definition identificationWarning (errorMessage : jsstring) : jsstring :=
  js "Workspace contains pipfile but attempt to run 'poetry env info -p' failed with "
  ++ errorMessage ++ js ". Make sure poetry is on the PATH.".

(** The [catch] block of [invokePoetry]. *)
Definition invokePoetryCatch (error : JsError) : Eff.t (option jsstring) :=
  let platform := platformService serviceContainer in
  let proc := currentProc serviceContainer in
  let enviromentVariableValues : gmap jsstring (option jsstring) :=
    <[pathVariableName platform := env proc !! pathVariableName platform]>
      (<[js "LANG" := env proc !! js "LANG"]>
         (<[js "LC_ALL" := env proc !! js "LC_ALL"]> ∅)) in
  let* _ := logger_logWarning (js "Error in invoking Poetry") (Some error) in
  let* _ := logger_logWarning
              (js "Relevant Environment Variables "
               ++ jsonStringify (host serviceContainer) enviromentVariableValues)
              None in
  let errorMessage := errorMessageText error in
  let* _ := workspace_showMessage (invokePoetryWarning errorMessage) MsgWarning in
  Eff.ret None.

Definition invokePoetry (arg rootPath : jsstring) : Eff.t (option jsstring) :=
  Eff.try_catch
    (let* processService := processServiceFactory_create (UriFile rootPath) in
     let execName := executable in
     let* result := processService_exec processService execName
                      [js "env"; js "info"; js "-p"] rootPath in
     match result with
     | Some result =>
         let stdout' := trimmedOrEmpty (stdout result) in
         let stderr' := trimmedOrEmpty (stderr result) in
         if (0 <? length stderr') && (length stdout' =? 0)
         then Eff.throw (newError stderr')
         else
           let* trimmed := trimUnguarded (stdout result) in
           let pythonPath := NodePath.join [trimmed; js "bin"; js "python"] in
           let* _ := logger_logWarning pythonPath None in
           Eff.ret (Some pythonPath)
     | None => Eff.ret None
     end)
    invokePoetryCatch.

Definition checkIfPoetryLockFileExists (cwd : jsstring) : Eff.t bool :=
  let* found := fs_fileExists (NodePath.join [cwd; js "poetry.lock"]) in
  if found then Eff.ret true else Eff.ret false.

(** The [catch] block of [getInterpreterPathFromPoetry]. *)
Definition getInterpreterPathFromPoetryCatch (ignoreErrors : bool) (error : JsError)
  : Eff.t (option jsstring) :=
  let* _ := traceError (js "Poetry identification failed") error in
  if ignoreErrors then Eff.ret None
  else
    let errorMessage := errorMessageText error in
    let* _ := workspace_showMessage (identificationWarning errorMessage) MsgWarning in
    Eff.ret None.

Definition getInterpreterPathFromPoetry (cwd : jsstring) (ignoreErrors : bool)
  : Eff.t (option jsstring) :=
  let* lockFile := checkIfPoetryLockFileExists cwd in
  if negb lockFile then Eff.ret None
  else
    Eff.try_catch
      (let* pythonPath := invokePoetry (js "env info -p") cwd in
       match pythonPath with
       | Some p =>
           if truthy p then
             let* found := fs_fileExists p in
             Eff.ret (if found then Some p else None)
           else Eff.ret None
       | None => Eff.ret None
       end)
      (getInterpreterPathFromPoetryCatch ignoreErrors).

Definition isRelatedPoetryEnvironment (dir pythonPath : jsstring) : Eff.t bool :=
  if (indexOf pythonPath (NodePath.sep ++ NodePath.basename dir ++ js "-") =? -1)%Z
  then Eff.ret false
  else
    let* envName := getInterpreterPathFromPoetry dir true in
    Eff.ret (truthy_opt envName).

Definition getPoetryWorkingDirectory (resource : option Uri) : option jsstring :=
  let wsFolder :=
    match resource with
    | Some r => getWorkspaceFolder (workspace serviceContainer) r
    | None => None
    end in
  match wsFolder with
  | Some folder => Some (fsPathOfParsedUri (host serviceContainer) (uri folder))
  | None => rootPath (workspace serviceContainer)
  end.

Definition getInterpreterFromPoetry (poetryCwd : jsstring)
  : Eff.t (option PythonInterpreter) :=
  let* interpreterPath := getInterpreterPathFromPoetry poetryCwd false in
  match interpreterPath with
  | Some interpreterPath =>
      if truthy interpreterPath then
        let* details := helper_getInterpreterInformation interpreterPath in
        match details with
        | Some details =>
            let* _ := Eff.emit (HasInterpretersResolve true) in
            Eff.ret (Some (<["poetryWorkspaceFolder" := VString poetryCwd]>
                             (<["type" := VKind Poetry]>
                                (<["path" := VString interpreterPath]> details))))
        | None => Eff.ret None
        end
      else Eff.ret None
  | None => Eff.ret None
  end.

Definition getInterpretersImplementation (resource : option Uri)
  : Eff.t (list PythonInterpreter) :=
  let poetryCwd := getPoetryWorkingDirectory resource in
  if truthy_opt poetryCwd then
    match poetryCwd with
    | Some poetryCwd =>
        Eff.try_catch
          (Eff.then_ (getInterpreterFromPoetry poetryCwd)
                     (fun item => match item with Some i => [i] | None => [] end))
          (fun _ => Eff.ret [])
    | None => Eff.ret []
    end
  else Eff.ret [].

End Methods.
End PoetryService.

(* ===================================================================== *)
(** ** [PoetryActivationCommandProvider] *)
(* ===================================================================== *)

Record IInterpreterService : Type :=
  { getActiveInterpreter : option Uri -> Outcome (option PythonInterpreter);
    getInterpreterDetails : jsstring -> Outcome (option PythonInterpreter) }.

(** What the provider sees of the poetry service. *)
Record IPoetryService : Type :=
  { executable : jsstring }.

Module PoetryActivationCommandProvider.
Section Methods.

(** [TerminalShellType] and [fileToCommandArgument] are declared in
    [common/terminal/types] and [common/string]; the provider is
    written against whatever they are. *)
Variable TerminalShellType : Type.
Variable fileToCommandArgument : jsstring -> jsstring.

Variable interpreterService : IInterpreterService.
Variable poetryService : IPoetryService.

Definition isShellSupported (_targetShell : TerminalShellType) : bool := false.

(** [!interpreter || interpreter.type !== InterpreterType.Poetry] *)
Definition notPoetry (interpreter : option PythonInterpreter) : bool :=
  match interpreter with
  | Some i => negb (bool_decide (i !! "type" = Some (VKind Poetry)))
  | None => true
  end.

Definition getActivationCommands (resource : option Uri) (_ : TerminalShellType)
  : Eff.t (option (list jsstring)) :=
  let* interpreter := Eff.call (GetActiveInterpreter resource)
                        (getActiveInterpreter interpreterService resource) in
  if notPoetry interpreter then Eff.ret None
  else
    let execName := executable poetryService in
    Eff.ret (Some [fileToCommandArgument execName ++ js " shell"]).

Definition getActivationCommandsForInterpreter (pythonPath : jsstring)
    (_targetShell : TerminalShellType) : Eff.t (option (list jsstring)) :=
  let* interpreter := Eff.call (GetInterpreterDetails pythonPath)
                        (getInterpreterDetails interpreterService pythonPath) in
  if notPoetry interpreter then Eff.ret None
  else
    let execName := executable poetryService in
    Eff.ret (Some [fileToCommandArgument execName ++ js " shell"]).

End Methods.
End PoetryActivationCommandProvider.

(* ===================================================================== *)
(** ** Concrete collaborators used to run the model *)
(* ===================================================================== *)

Module Sample.

Definition projectDir : jsstring := js "/home/me/app".
Definition lockFile : jsstring := js "/home/me/app/poetry.lock".
Definition venvPython : jsstring := js "/venvs/app-py3.8/bin/python".

Fixpoint eqs (a b : jsstring) : bool :=
  match a, b with
  | [], [] => true
  | x :: a', y :: b' => (x =? y)%N && eqs a' b'
  | _, _ => false
  end.

Definition fsWith (files : list jsstring) : IFileSystem :=
  {| fileExists := fun p => existsb (eqs p) files |}.

Definition processReturning (r : Outcome (option ExecutionResult)) : IProcessService :=
  {| exec := fun _ _ _ => r |}.

Definition factoryOf (r : Outcome (option ExecutionResult)) : IProcessServiceFactory :=
  {| create := fun _ => Resolved (processReturning r) |}.

Definition brokenFactory : IProcessServiceFactory :=
  {| create := fun _ => Rejected (newError (js "no process service")) |}.

Definition details : PythonInterpreter :=
  {[ "version" := VString (js "3.8.2"); "type" := VKind Unknown ]}.

Definition helperWith (r : Outcome (option PythonInterpreter)) : IInterpreterHelper :=
  {| getInterpreterInformation := fun _ => r |}.

Definition container (files : list jsstring) (factory : IProcessServiceFactory)
    (info : Outcome (option PythonInterpreter)) : IServiceContainer :=
  {| helper := helperWith info;
     processServiceFactory := factory;
     workspace := {| getWorkspaceFolder := fun _ => None;
                     rootPath := Some projectDir |};
     fs := fsWith files;
     configService := {| poetryPath := js "poetry" |};
     platformService := {| pathVariableName := js "PATH" |};
     currentProc := {| env := {[ js "PATH" := js "/usr/bin" ]} |};
     host := {| fsPathOfParsedUri := fun u => u;
                jsonStringify := fun _ => js "{}" |} |}.

Definition poetryOutput : Outcome (option ExecutionResult) :=
  Resolved (Some {| stdout := Some (js "/venvs/app-py3.8
"); stderr := None |}).

Definition poetryComplaint : Outcome (option ExecutionResult) :=
  Resolved (Some {| stdout := Some (js " "); stderr := Some (js "boom ") |}).

(** A result with neither stream. *)
Definition poetrySilent : Outcome (option ExecutionResult) :=
  Resolved (Some {| stdout := None; stderr := None |}).

Definition poetryMissing : Outcome (option ExecutionResult) :=
  Rejected (newError (js "spawn poetry ENOENT")).

(** A project with a lock file whose environment exists. *)
Definition healthy : IServiceContainer :=
  container [lockFile; venvPython] (factoryOf poetryOutput) (Resolved (Some details)).

(** The same project without [poetry.lock]. *)
Definition unlocked : IServiceContainer :=
  container [venvPython] (factoryOf poetryOutput) (Resolved (Some details)).

(** The executable cannot be started. *)
Definition missingTool : IServiceContainer :=
  container [lockFile; venvPython] (factoryOf poetryMissing) (Resolved (Some details)).

(** The executable only writes to stderr. *)
Definition complaining : IServiceContainer :=
  container [lockFile; venvPython] (factoryOf poetryComplaint) (Resolved (Some details)).

(** Reading the interpreter's details fails. *)
Definition unreadable : IServiceContainer :=
  container [lockFile; venvPython] (factoryOf poetryOutput)
            (Rejected (newError (js "cannot run python"))).

Definition poetryInterpreter : PythonInterpreter :=
  {[ "path" := VString venvPython; "type" := VKind Poetry ]}.

Definition condaInterpreter : PythonInterpreter :=
  {[ "path" := VString (js "/opt/conda/bin/python"); "type" := VKind Conda ]}.

Definition interpreters (active : option PythonInterpreter) : IInterpreterService :=
  {| getActiveInterpreter := fun _ => Resolved active;
     getInterpreterDetails := fun _ => Resolved active |}.

(** The environment poetry reports has been removed from disk. *)
Definition stale : IServiceContainer :=
  container [lockFile] (factoryOf poetryOutput) (Resolved (Some details)).

(** No process service can be created. *)
Definition unstartable : IServiceContainer :=
  container [lockFile; venvPython] brokenFactory (Resolved (Some details)).

(** The process resolves with neither stream. *)
Definition silent : IServiceContainer :=
  container [lockFile; venvPython] (factoryOf poetrySilent) (Resolved (Some details)).

(** The same collaborators around another workspace service. *)
Definition withWorkspace (ws : IWorkspaceService) (sc : IServiceContainer)
  : IServiceContainer :=
  {| helper := helper sc;
     processServiceFactory := processServiceFactory sc;
     workspace := ws;
     fs := fs sc;
     configService := configService sc;
     platformService := platformService sc;
     currentProc := currentProc sc;
     host := host sc |}.

(** No folder is open. *)
Definition folderless : IServiceContainer :=
  withWorkspace {| getWorkspaceFolder := fun _ => None; rootPath := None |} healthy.

Definition rejecting (reason : JsError) : IInterpreterService :=
  {| getActiveInterpreter := fun _ => Rejected reason;
     getInterpreterDetails := fun _ => Rejected reason |}.

End Sample.

(* ===================================================================== *)
(** ** Vocabulary of the specification *)
(* ===================================================================== *)

(** The lock file whose presence marks a poetry project. *)
Definition lockFileOf (cwd : jsstring) : jsstring :=
  NodePath.join [cwd; js "poetry.lock"].

(** The arguments the external executable is started with. *)
Definition poetryArgs : list jsstring := [js "env"; js "info"; js "-p"].

(** A stream of a process result after trimming; a missing stream has
    nothing in it. *)
Definition trimmedStream (stream : option jsstring) : jsstring :=
  match stream with Some s => trim s | None => [] end.

(** The result reports on stderr only. *)
Definition stderrOnly (result : ExecutionResult) : Prop :=
  trimmedStream (stderr result) <> [] /\ trimmedStream (stdout result) = [].

(** The ways the external tool invocation fails, with the error each one
    stands for: the process rejects, or it writes to stderr only. *)
Inductive ToolFailure : Outcome (option ExecutionResult) -> JsError -> Prop :=
| exec_rejects (reason : JsError) :
    ToolFailure (Rejected reason) reason
| exec_stderr_only (result : ExecutionResult) :
    stderrOnly result ->
    ToolFailure (Resolved (Some result))
                (newError (trimmedStream (stderr result))).

(** The run [whole] performs the calls of [part], in order and without
    interruption. *)
Definition performs {A B} (whole : Eff.t A) (part : Eff.t B) : Prop :=
  exists before after,
    Eff.journal whole = before ++ Eff.journal part ++ after.

(** The needle [isRelatedPoetryEnvironment] looks for: separator, base
    name of the directory, hyphen. *)
Definition envPrefix (dir : jsstring) : jsstring :=
  NodePath.sep ++ NodePath.basename dir ++ js "-".

(** The activation command for a poetry executable. *)
Definition shellCommand (quote : jsstring -> jsstring) (execName : jsstring)
  : jsstring :=
  quote execName ++ js " shell".

(** The interpreter object carries type tag [k]. *)
Definition hasType (k : InterpreterType) (i : PythonInterpreter) : Prop :=
  i !! "type" = Some (VKind k).

(* ===================================================================== *)
(** ** Further vocabulary *)
(* ===================================================================== *)

Definition isTraceError (ev : Event) : bool :=
  match ev with TraceError _ _ => true | _ => false end.

Definition isErrorLogged (ev : Event) : bool :=
  match ev with LogWarning _ (Some _) => true | _ => false end.

Definition isInformationRequest (ev : Event) : bool :=
  match ev with GetInterpreterInformation _ => true | _ => false end.

Definition isHasInterpretersResolve (ev : Event) : bool :=
  match ev with HasInterpretersResolve _ => true | _ => false end.

(** An error reaches neither the log, nor the trace, nor the user. *)
Definition isErrorReport (ev : Event) : bool :=
  isErrorLogged ev || isTraceError ev || isShowMessage ev.

(** [s] ends with [suffix]. *)
Definition endsWith (s suffix : jsstring) : Prop :=
  exists pre, s = pre ++ suffix.

(** The interpreter path derived from what the executable printed. *)
Definition pythonPathOf (printed : jsstring) : jsstring :=
  NodePath.join [trim printed; js "bin"; js "python"].

(** A process result the code accepts: it has a stdout, and it is not a
    report on stderr only. *)
Definition usableOutput (result : ExecutionResult) (printed : jsstring) : Prop :=
  stdout result = Some printed /\ ~ stderrOnly result.

(** The calls a lookup in [cwd] may make: the two file checks, the
    process service for [cwd], the one command line, log lines and
    warnings. *)
Definition lookupCall (sc : IServiceContainer) (cwd : jsstring) (ev : Event)
  : Prop :=
  match ev with
  | FileExists p => p = lockFileOf cwd \/ endsWith p (js "bin/python")
  | CreateProcessService resource => resource = UriFile cwd
  | Exec file args dir =>
      file = PoetryService.executable sc /\ args = poetryArgs /\ dir = cwd
  | LogWarning _ _ => True
  | ShowMessage _ messageType => messageType = MsgWarning
  | _ => False
  end.

(** The journal of a lookup that found the interpreter [p]. *)
Definition foundJournal (sc : IServiceContainer) (cwd p : jsstring) : list Event :=
  [FileExists (lockFileOf cwd);
   CreateProcessService (UriFile cwd);
   Exec (PoetryService.executable sc) poetryArgs cwd;
   LogWarning p None;
   FileExists p].

(** [PoetryService] seen through [IPoetryService], the interface it
    implements. *)
Definition asPoetryService (sc : IServiceContainer) : IPoetryService :=
  {| executable := PoetryService.executable sc |}.

(* ===================================================================== *)
(** ** Running the model *)
(* ===================================================================== *)

(** Closes a goal about concrete data by running the model. *)
Ltac by_computation := vm_compute; first [reflexivity | discriminate].

Example trim_sample : trim (js "  /venvs/app-py3.8 ") = js "/venvs/app-py3.8".
Proof. reflexivity. Qed.

Example join_sample1 :
  NodePath.join [js "/venvs/app-py3.8"; js "bin"; js "python"]
  = js "/venvs/app-py3.8/bin/python".
Proof. reflexivity. Qed.

Example join_sample2 : NodePath.join [js ""; js "bin"; js "python"] = js "bin/python".
Proof. reflexivity. Qed.

Example join_sample3 :
  NodePath.join [js "/a/./b/../c//"; js "bin"; js "python"] = js "/a/c/bin/python".
Proof. reflexivity. Qed.

Example join_sample4 : NodePath.join [js "../.."; js ".."] = js "../../..".
Proof. reflexivity. Qed.

Example basename_sample1 : NodePath.basename (js "/home/me/app/") = js "app".
Proof. reflexivity. Qed.

Example basename_sample2 : NodePath.basename (js "///") = js "".
Proof. reflexivity. Qed.

Example indexOf_sample1 : indexOf (js "/venvs/app-py3.8/bin/python") (js "/app-") = 6%Z.
Proof. reflexivity. Qed.

Example indexOf_sample2 : indexOf (js "/usr/bin/python") (js "/app-") = (-1)%Z.
Proof. reflexivity. Qed.

Example healthy_project_resolves :
  PoetryService.getInterpreterPathFromPoetry Sample.healthy Sample.projectDir false
  = ([FileExists Sample.lockFile;
      CreateProcessService (UriFile Sample.projectDir);
      Exec (js "poetry") poetryArgs Sample.projectDir;
      LogWarning Sample.venvPython None;
      FileExists Sample.venvPython],
     Resolved (Some Sample.venvPython)).
Proof. by_computation. Qed.

Example project_without_lock_file :
  PoetryService.getInterpreterPathFromPoetry Sample.unlocked Sample.projectDir false
  = ([FileExists Sample.lockFile], Resolved None).
Proof. by_computation. Qed.

Example missing_tool_is_reported :
  PoetryService.getInterpreterPathFromPoetry Sample.missingTool Sample.projectDir true
  = ([FileExists Sample.lockFile;
      CreateProcessService (UriFile Sample.projectDir);
      Exec (js "poetry") poetryArgs Sample.projectDir;
      LogWarning (js "Error in invoking Poetry")
                 (Some (newError (js "spawn poetry ENOENT")));
      LogWarning (js "Relevant Environment Variables {}") None;
      ShowMessage
        (js "Workspace contains pipfile but attempt to run 'poetry env info -p' failed with 'spawn poetry ENOENT'. Make sure poetry is on the PATH.")
        MsgWarning],
     Resolved None).
Proof. by_computation. Qed.

Example process_service_unavailable :
  PoetryService.invokePoetry
    (Sample.container [Sample.lockFile] Sample.brokenFactory (Resolved None))
    (js "env info -p") Sample.projectDir
  = ([CreateProcessService (UriFile Sample.projectDir);
      LogWarning (js "Error in invoking Poetry")
                 (Some (newError (js "no process service")));
      LogWarning (js "Relevant Environment Variables {}") None;
      ShowMessage
        (js "Workspace contains pipfile but attempt to run 'poetry env info -p' failed with 'no process service'. Make sure poetry is on the PATH.")
        MsgWarning],
     Resolved None).
Proof. by_computation. Qed.

Example result_without_stdout :
  Eff.outcome
    (PoetryService.invokePoetry
       (Sample.container [Sample.lockFile] (Sample.factoryOf Sample.poetrySilent)
                         (Resolved None))
       (js "env info -p") Sample.projectDir)
  = Resolved None.
Proof. by_computation. Qed.

Example unreadable_interpreter_is_dropped :
  Eff.outcome (PoetryService.getInterpreterFromPoetry Sample.unreadable
                 Sample.projectDir)
  = Rejected (newError (js "cannot run python"))
  /\ Eff.outcome (PoetryService.getInterpretersImplementation Sample.unreadable None)
     = Resolved [].
Proof. split; by_computation. Qed.

(* ===================================================================== *)
(** ** Facts about strings and paths *)
(* ===================================================================== *)

Section StringFacts.

Lemma startsWith_prefix (sub s : jsstring) :
  startsWith s sub = true <-> exists post, s = sub ++ post.
Proof.
  revert s. induction sub as [|c sub IH]; intros s.
  - destruct s; simpl; split; eauto.
  - destruct s as [|d s]; simpl.
    + split; [discriminate | intros [post H]; discriminate].
    + rewrite andb_true_iff, N.eqb_eq, IH. split.
      * intros [-> [post ->]]. eauto.
      * intros [post H]. injection H as -> ->. eauto.
Qed.

Lemma indexOf_from_absent (sub s : jsstring) (i : Z) :
  (0 <= i)%Z ->
  indexOf_from s sub i = (-1)%Z <-> ~ contains s sub.
Proof.
  revert i. induction s as [|d s IH]; intros i Hi; cbn [indexOf_from].
  - destruct (startsWith [] sub) eqn:E.
    + apply startsWith_prefix in E as [post E]. split; [lia|].
      intros H. exfalso. apply H. exists [], post. exact E.
    + split; [|done]. intros _ (pre & post & H).
      destruct pre; [|discriminate]. simpl in H.
      assert (startsWith [] sub = true) by (apply startsWith_prefix; eauto).
      congruence.
  - destruct (startsWith (d :: s) sub) eqn:E.
    + apply startsWith_prefix in E as [post E]. split; [lia|].
      intros H. exfalso. apply H. exists [], post. exact E.
    + rewrite IH by lia. split.
      * intros H (pre & post & Hs). destruct pre as [|x pre].
        -- simpl in Hs.
           assert (startsWith (d :: s) sub = true)
             by (apply startsWith_prefix; eauto).
           congruence.
        -- injection Hs as -> ->. apply H. by exists pre, post.
      * intros H (pre & post & ->). apply H. by exists (d :: pre), post.
Qed.

(** [s.indexOf(sub) === -1] says exactly that [sub] does not occur in [s]. *)
Lemma indexOf_absent (s sub : jsstring) :
  indexOf s sub = (-1)%Z <-> ~ contains s sub.
Proof. unfold indexOf. by apply indexOf_from_absent. Qed.

Lemma indexOf_from_found (sub s : jsstring) (i : Z) :
  indexOf_from s sub i <> (-1)%Z -> contains s sub.
Proof.
  revert i. induction s as [|d s IH]; intros i; cbn [indexOf_from].
  - destruct (startsWith [] sub) eqn:E; [|done].
    apply startsWith_prefix in E as [post E]. intros _. by exists [], post.
  - destruct (startsWith (d :: s) sub) eqn:E.
    + apply startsWith_prefix in E as [post E]. intros _. by exists [], post.
    + intros H. destruct (IH _ H) as (pre & post & ->).
      by exists (d :: pre), post.
Qed.

(** [s.indexOf(sub) !== -1] yields an occurrence of [sub] in [s]. *)
Lemma indexOf_found (s sub : jsstring) :
  indexOf s sub <> (-1)%Z -> contains s sub.
Proof. apply indexOf_from_found. Qed.

Lemma normalize_truthy (p : jsstring) : truthy (NodePath.normalize p) = true.
Proof.
  unfold NodePath.normalize. destruct p as [|c p]; [done|].
  destruct (NodePath.normalizeString (c :: p) _) as [|x q].
  - by repeat case_match.
  - by repeat case_match.
Qed.

(** [path.join] never yields the empty string. *)
Lemma join_truthy (args : list jsstring) : truthy (NodePath.join args) = true.
Proof.
  unfold NodePath.join.
  destruct (filter _ args); [done | apply normalize_truthy].
Qed.

End StringFacts.

(* ===================================================================== *)
(** ** Facts about [PoetryService] *)
(* ===================================================================== *)

Section PoetryServiceFacts.

Import PoetryService.

Variable sc : IServiceContainer.

Lemma trimmedOrEmpty_trimmed (stream : option jsstring) :
  trimmedOrEmpty stream = trimmedStream stream.
Proof.
  destruct stream as [[|c s]|]; reflexivity.
Qed.

(** Every failure inside [invokePoetry] ends in its own [catch] block,
    which resolves. *)
Lemma invokePoetryCatch_run (error : JsError) :
  exists m,
    invokePoetryCatch sc error =
      ([LogWarning (js "Error in invoking Poetry") (Some error);
        LogWarning m None;
        ShowMessage (invokePoetryWarning (errorMessageText error)) MsgWarning],
       Resolved None).
Proof. eexists. reflexivity. Qed.

Lemma invokePoetry_resolves (arg root : jsstring) :
  exists v, Eff.outcome (invokePoetry sc arg root) = Resolved v.
Proof.
  unfold invokePoetry, processServiceFactory_create, processService_exec, Eff.call.
  destruct (create _ _) as [ps|e]; [|by eexists].
  cbn [Eff.bind Eff.try_catch].
  destruct (exec ps _ _ _) as [[res|]|e]; [|by eexists..].
  destruct (_ && _); [by eexists|].
  destruct (stdout res); by eexists.
Qed.

Lemma invokePoetry_truthy (arg root p : jsstring) :
  Eff.outcome (invokePoetry sc arg root) = Resolved (Some p) -> truthy p = true.
Proof.
  unfold invokePoetry, processServiceFactory_create, processService_exec, Eff.call.
  destruct (create _ _) as [ps|e]; [|discriminate].
  cbn [Eff.bind Eff.try_catch].
  destruct (exec ps _ _ _) as [[res|]|e]; [|discriminate..].
  destruct (_ && _); [discriminate|].
  destruct (stdout res); [|discriminate].
  cbn. intros [= <-]. apply join_truthy.
Qed.

Lemma invokePoetry_starts (arg root : jsstring) :
  exists rest,
    Eff.journal (invokePoetry sc arg root)
    = CreateProcessService (UriFile root) :: rest.
Proof.
  unfold invokePoetry, processServiceFactory_create, processService_exec, Eff.call.
  destruct (create _ _) as [ps|e]; [|by eexists].
  cbn [Eff.bind Eff.try_catch].
  destruct (exec ps _ _ _) as [[res|]|e]; [|by eexists..].
  destruct (_ && _); [by eexists|].
  destruct (stdout res); by eexists.
Qed.

(** The whole of [getInterpreterPathFromPoetry], call by call. *)
Lemma getInterpreterPathFromPoetry_run (cwd : jsstring) (ignoreErrors : bool) :
  let invocation := invokePoetry sc (js "env info -p") cwd in
  getInterpreterPathFromPoetry sc cwd ignoreErrors =
    if fileExists (fs sc) (lockFileOf cwd) then
      match Eff.outcome invocation with
      | Resolved (Some p) =>
          (FileExists (lockFileOf cwd) :: Eff.journal invocation ++ [FileExists p],
           Resolved (if fileExists (fs sc) p then Some p else None))
      | _ =>
          (FileExists (lockFileOf cwd) :: Eff.journal invocation, Resolved None)
      end
    else ([FileExists (lockFileOf cwd)], Resolved None).
Proof.
  intros invocation.
  unfold getInterpreterPathFromPoetry, checkIfPoetryLockFileExists,
    fs_fileExists, Eff.call.
  fold (lockFileOf cwd). fold invocation.
  destruct (invokePoetry_resolves (js "env info -p") cwd) as [v Hv].
  pose proof (invokePoetry_truthy (js "env info -p") cwd) as Ht.
  fold invocation in Hv, Ht. clearbody invocation.
  destruct invocation as [j o]. cbn in Hv, Ht. subst o.
  destruct (fileExists (fs sc) (lockFileOf cwd)); cbn; [|done].
  destruct v as [p|]; cbn.
  - by rewrite (Ht p eq_refl).
  - by rewrite app_nil_r.
Qed.

End PoetryServiceFacts.

Section InvocationFacts.

Import PoetryService.

Variable sc : IServiceContainer.

Lemma stderrOnly_condition (result : ExecutionResult) :
  stderrOnly result ->
  (0 <? length (trimmedOrEmpty (stderr result)))
  && (length (trimmedOrEmpty (stdout result)) =? 0) = true.
Proof.
  intros [Herr Hout]. rewrite !trimmedOrEmpty_trimmed, Hout.
  destruct (trimmedStream (stderr result)); [done | reflexivity].
Qed.

Lemma condition_stderrOnly (result : ExecutionResult) :
  (0 <? length (trimmedOrEmpty (stderr result)))
  && (length (trimmedOrEmpty (stdout result)) =? 0) = true ->
  stderrOnly result.
Proof.
  rewrite !trimmedOrEmpty_trimmed. unfold stderrOnly.
  destruct (trimmedStream (stderr result)), (trimmedStream (stdout result));
    cbn; intros; split; congruence.
Qed.

(** A failed invocation, call by call: the process is created and
    started once, the error is logged twice and shown once. *)
Lemma invokePoetry_failure_run (arg root : jsstring) (ps : IProcessService)
    (error : JsError) :
  create (processServiceFactory sc) (UriFile root) = Resolved ps ->
  ToolFailure (exec ps (executable sc) poetryArgs root) error ->
  exists m,
    invokePoetry sc arg root =
      ([CreateProcessService (UriFile root);
        Exec (executable sc) poetryArgs root;
        LogWarning (js "Error in invoking Poetry") (Some error);
        LogWarning m None;
        ShowMessage (invokePoetryWarning (errorMessageText error)) MsgWarning],
       Resolved None).
Proof.
  intros Hcreate Hfail.
  unfold invokePoetry, processServiceFactory_create, processService_exec, Eff.call.
  rewrite Hcreate. cbn [Eff.bind Eff.try_catch]. fold poetryArgs.
  inversion Hfail as [reason Hexec | result Honly Hexec]; subst.
  - eexists. reflexivity.
  - rewrite (stderrOnly_condition _ Honly), trimmedOrEmpty_trimmed.
    eexists. reflexivity.
Qed.

(** Whatever happens, [invokePoetry] starts the executable at most once
    and shows at most one message. *)
Lemma invokePoetry_counts (arg root : jsstring) :
  count isExec (Eff.journal (invokePoetry sc arg root)) <= 1 /\
  count isShowMessage (Eff.journal (invokePoetry sc arg root)) <= 1.
Proof.
  unfold invokePoetry, processServiceFactory_create, processService_exec, Eff.call.
  destruct (create _ _) as [ps|e]; [|cbn; lia].
  cbn [Eff.bind Eff.try_catch].
  destruct (exec ps _ _ _) as [[res|]|e]; [|cbn; lia..].
  destruct (_ && _); [cbn; lia|].
  destruct (stdout res); cbn; lia.
Qed.

Lemma count_app (p : Event -> bool) (j1 j2 : list Event) :
  count p (j1 ++ j2) = count p j1 + count p j2.
Proof. unfold count. by rewrite List.filter_app, length_app. Qed.

Lemma count_nil (p : Event -> bool) : count p [] = 0.
Proof. reflexivity. Qed.

Lemma count_cons (p : Event -> bool) (ev : Event) (j : list Event) :
  count p (ev :: j) = (if p ev then 1 else 0) + count p j.
Proof. unfold count. cbn. by destruct (p ev). Qed.

End InvocationFacts.

(* ===================================================================== *)
(** ** Properties of [getInterpreterPathFromPoetry] *)
(* ===================================================================== *)

(** C1. For every working directory, [getInterpreterPathFromPoetry]
    resolves to a defined path exactly when the external poetry invocation
    takes place and succeeds ([invokePoetry] returns that path) and the
    path exists on the file system; in every other case it resolves to
    [undefined].  The invocation takes place exactly in the directories
    that hold the lock file. *)
Theorem C1_path_iff_invocation_succeeds_and_path_exists
    (sc : IServiceContainer) (cwd : jsstring) (ignoreErrors : bool) :
  let run := PoetryService.getInterpreterPathFromPoetry sc cwd ignoreErrors in
  let invocation := PoetryService.invokePoetry sc (js "env info -p") cwd in
  (forall p : jsstring,
      Eff.outcome run = Resolved (Some p) <->
      performs run invocation
      /\ Eff.outcome invocation = Resolved (Some p)
      /\ fileExists (fs sc) p = true)
  /\ ((exists p, Eff.outcome run = Resolved (Some p))
      \/ Eff.outcome run = Resolved None)
  /\ (performs run invocation <-> fileExists (fs sc) (lockFileOf cwd) = true).
Proof.
  intros run invocation. subst run.
  rewrite getInterpreterPathFromPoetry_run. fold invocation.
  destruct (invokePoetry_starts sc (js "env info -p") cwd) as [rest Hstart].
  fold invocation in Hstart.
  destruct (fileExists (fs sc) (lockFileOf cwd)) eqn:Hlock.
  - assert (Hperf : forall tail o,
               performs (A:=option jsstring)
                 (FileExists (lockFileOf cwd) :: Eff.journal invocation ++ tail, o)
                 invocation)
      by (intros tail o; by exists [FileExists (lockFileOf cwd)], tail).
    destruct (Eff.outcome invocation) as [[q|]|e] eqn:Hinv.
    + split; [|split].
      * intros p. cbn [Eff.outcome snd].
        destruct (fileExists (fs sc) q) eqn:Hq; split.
        -- intros [= <-]. auto.
        -- by intros (_ & [= <-] & _).
        -- discriminate.
        -- intros (_ & [= <-] & ?). congruence.
      * cbn [Eff.outcome snd]. destruct (fileExists (fs sc) q); eauto.
      * split; [done | auto].
    + split; [|split].
      * intros p. split; [discriminate | by intros (_ & ? & _)].
      * by right.
      * split; [done|]. intros _.
        specialize (Hperf [] (Resolved None)). by rewrite app_nil_r in Hperf.
    + split; [|split].
      * intros p. split; [discriminate | by intros (_ & ? & _)].
      * by right.
      * split; [done|]. intros _.
        specialize (Hperf [] (Resolved None)). by rewrite app_nil_r in Hperf.
  - assert (Hnot : ~ performs (A:=option jsstring)
                       ([FileExists (lockFileOf cwd)], Resolved None) invocation).
    { intros (before & after & Hj). cbn in Hj. rewrite Hstart in Hj.
      assert (Hin : In (CreateProcessService (UriFile cwd))
                       [FileExists (lockFileOf cwd)]).
      { rewrite Hj. apply in_or_app. right. by left. }
      destruct Hin as [? | []]. discriminate. }
    split; [|split].
    + intros p. split; [discriminate | by intros (? & _)].
    + by right.
    + split; [done | discriminate].
Qed.

(** C3. In a project directory without [poetry.lock],
    [getInterpreterPathFromPoetry] only asks for the lock file and returns
    [undefined]: the executable is not started.  In any directory, a start
    of the executable comes after that check, which then answered yes. *)
Theorem C3_no_lock_file_no_subprocess
    (sc : IServiceContainer) (cwd : jsstring) (ignoreErrors : bool) :
  let run := PoetryService.getInterpreterPathFromPoetry sc cwd ignoreErrors in
  (fileExists (fs sc) (lockFileOf cwd) = false ->
     Eff.outcome run = Resolved None
     /\ Eff.journal run = [FileExists (lockFileOf cwd)]
     /\ count isExec (Eff.journal run) = 0)
  /\ (forall file args dir before after,
        Eff.journal run = before ++ Exec file args dir :: after ->
        fileExists (fs sc) (lockFileOf cwd) = true
        /\ exists between, before = FileExists (lockFileOf cwd) :: between).
Proof.
  intros run. subst run. rewrite getInterpreterPathFromPoetry_run.
  destruct (fileExists (fs sc) (lockFileOf cwd)) eqn:Hlock.
  - split; [discriminate|].
    intros file args dir before after Hj. split; [done|].
    destruct before as [|ev before].
    + exfalso. destruct (Eff.outcome _) as [[q|]|e]; cbn in Hj; discriminate.
    + exists before. f_equal.
      destruct (Eff.outcome _) as [[q|]|e]; cbn in Hj; congruence.
  - cbn. split; [done|].
    intros file args dir before after Hj. exfalso.
    destruct before as [|ev [|ev' before]]; discriminate.
Qed.

Lemma C3_no_lock_file_no_subprocess_witness :
  fileExists (fs Sample.unlocked) (lockFileOf Sample.projectDir) = false
  /\ Eff.outcome
       (PoetryService.getInterpreterPathFromPoetry
          Sample.unlocked Sample.projectDir false) = Resolved None.
Proof.
  assert (Hlock : fileExists (fs Sample.unlocked)
                    (lockFileOf Sample.projectDir) = false) by by_computation.
  split; [exact Hlock|].
  exact (proj1 (proj1 (C3_no_lock_file_no_subprocess
                         Sample.unlocked Sample.projectDir false) Hlock)).
Defined.

(** C2. Whenever the external tool invocation fails (the process [exec]
    rejects, or it yields a non-empty [stderr] with an empty [stdout],
    both as the code reads them, trimmed), the error is caught inside the
    service, logged, and shown to the user as a warning, and the caller of
    [getInterpreterPathFromPoetry] receives [undefined], not a
    rejection. *)
Theorem C2_tool_failure_is_caught_logged_and_shown
    (sc : IServiceContainer) (cwd : jsstring) (ignoreErrors : bool)
    (ps : IProcessService) (error : JsError) :
  fileExists (fs sc) (lockFileOf cwd) = true ->
  create (processServiceFactory sc) (UriFile cwd) = Resolved ps ->
  ToolFailure (exec ps (PoetryService.executable sc) poetryArgs cwd) error ->
  let run := PoetryService.getInterpreterPathFromPoetry sc cwd ignoreErrors in
  Eff.outcome run = Resolved None
  /\ In (LogWarning (js "Error in invoking Poetry") (Some error)) (Eff.journal run)
  /\ In (ShowMessage
           (PoetryService.invokePoetryWarning (errorMessageText error))
           MsgWarning)
        (Eff.journal run)
  /\ count isWarningShown (Eff.journal run) = 1.
Proof.
  intros Hlock Hcreate Hfail run. subst run.
  rewrite getInterpreterPathFromPoetry_run, Hlock.
  destruct (invokePoetry_failure_run sc (js "env info -p") cwd ps error
              Hcreate Hfail) as [m ->].
  cbn [Eff.outcome Eff.journal fst snd].
  split; [reflexivity|]. split; [do 3 right; left; reflexivity|].
  split; [do 5 right; left; reflexivity|]. reflexivity.
Qed.

Lemma C2_tool_failure_is_caught_logged_and_shown_witness :
  Eff.outcome
    (PoetryService.getInterpreterPathFromPoetry
       Sample.missingTool Sample.projectDir false) = Resolved None
  /\ Eff.outcome
       (PoetryService.getInterpreterPathFromPoetry
          Sample.complaining Sample.projectDir true) = Resolved None.
Proof.
  assert (Hlock1 : fileExists (fs Sample.missingTool)
                     (lockFileOf Sample.projectDir) = true) by by_computation.
  assert (Hlock2 : fileExists (fs Sample.complaining)
                     (lockFileOf Sample.projectDir) = true) by by_computation.
  assert (Honly : stderrOnly {| stdout := Some (js " ");
                                stderr := Some (js "boom ") |})
    by (split; by_computation).
  split.
  - exact (proj1 (C2_tool_failure_is_caught_logged_and_shown
                    Sample.missingTool Sample.projectDir false
                    (Sample.processReturning Sample.poetryMissing) _
                    Hlock1 eq_refl
                    (exec_rejects (newError (js "spawn poetry ENOENT"))))).
  - exact (proj1 (C2_tool_failure_is_caught_logged_and_shown
                    Sample.complaining Sample.projectDir true
                    (Sample.processReturning Sample.poetryComplaint) _
                    Hlock2 eq_refl (exec_stderr_only _ Honly))).
Defined.

(** C6. When the process result has a non-empty trimmed stderr and an
    empty trimmed stdout, [invokePoetry] treats the invocation as failed:
    it shows a warning quoting the trimmed stderr and resolves to
    [undefined]; no path is derived from the result. *)
Theorem C6_stderr_only_result_is_a_failure
    (sc : IServiceContainer) (arg rootPath : jsstring)
    (ps : IProcessService) (result : ExecutionResult) :
  create (processServiceFactory sc) (UriFile rootPath) = Resolved ps ->
  exec ps (PoetryService.executable sc) poetryArgs rootPath
    = Resolved (Some result) ->
  trimmedStream (stderr result) <> [] ->
  trimmedStream (stdout result) = [] ->
  let run := PoetryService.invokePoetry sc arg rootPath in
  Eff.outcome run = Resolved None
  /\ In (ShowMessage
           (PoetryService.invokePoetryWarning (trimmedStream (stderr result)))
           MsgWarning)
        (Eff.journal run).
Proof.
  intros Hcreate Hexec Herr Hout run. subst run.
  assert (Hfail : ToolFailure
                    (exec ps (PoetryService.executable sc) poetryArgs rootPath)
                    (newError (trimmedStream (stderr result)))).
  { rewrite Hexec. by apply exec_stderr_only. }
  destruct (invokePoetry_failure_run sc arg rootPath ps _ Hcreate Hfail)
    as [m ->].
  assert (Htext : errorMessageText (newError (trimmedStream (stderr result)))
                  = trimmedStream (stderr result)).
  { cbn. by destruct (trimmedStream (stderr result)). }
  rewrite Htext. cbn [Eff.outcome Eff.journal fst snd].
  split; [reflexivity|]. do 4 right. left. reflexivity.
Qed.

Lemma C6_stderr_only_result_is_a_failure_witness :
  Eff.outcome
    (PoetryService.invokePoetry Sample.complaining (js "env info -p")
       Sample.projectDir) = Resolved None.
Proof.
  assert (Herr : trimmedStream (Some (js "boom ")) <> []) by by_computation.
  assert (Hout : trimmedStream (Some (js " ")) = []) by by_computation.
  exact (proj1 (C6_stderr_only_result_is_a_failure
                  Sample.complaining (js "env info -p") Sample.projectDir
                  (Sample.processReturning Sample.poetryComplaint)
                  {| stdout := Some (js " "); stderr := Some (js "boom ") |}
                  eq_refl eq_refl Herr Hout)).
Defined.

(** C7. One call to [getInterpreterPathFromPoetry] starts the external
    executable at most once, and shows the user at most one message:
    a failure is not retried. *)
Theorem C7_executable_started_at_most_once
    (sc : IServiceContainer) (cwd : jsstring) (ignoreErrors : bool) :
  let run := PoetryService.getInterpreterPathFromPoetry sc cwd ignoreErrors in
  count isExec (Eff.journal run) <= 1
  /\ count isShowMessage (Eff.journal run) <= 1.
Proof.
  intros run. subst run. rewrite getInterpreterPathFromPoetry_run.
  destruct (invokePoetry_counts sc (js "env info -p") cwd) as [Hexec Hshow].
  destruct (fileExists (fs sc) (lockFileOf cwd)); [|cbn; lia].
  destruct (Eff.outcome _) as [[q|]|e]; cbn [Eff.journal fst];
    rewrite ?count_cons, ?count_app, ?count_cons, ?count_nil;
    cbn [isExec isShowMessage]; lia.
Qed.

Section ResolutionFacts.

Import PoetryService.

Variable sc : IServiceContainer.

Lemma getInterpreterPathFromPoetry_resolves (cwd : jsstring) (ignoreErrors : bool) :
  exists v,
    Eff.outcome (getInterpreterPathFromPoetry sc cwd ignoreErrors) = Resolved v.
Proof.
  rewrite getInterpreterPathFromPoetry_run.
  destruct (fileExists _ _); [|eexists; reflexivity].
  destruct (Eff.outcome (invokePoetry _ _ _)) as [[q|]|e]; eexists; reflexivity.
Qed.

Lemma getInterpreterPathFromPoetry_truthy (cwd : jsstring) (ignoreErrors : bool)
    (p : jsstring) :
  Eff.outcome (getInterpreterPathFromPoetry sc cwd ignoreErrors) = Resolved (Some p) ->
  truthy p = true.
Proof.
  rewrite getInterpreterPathFromPoetry_run.
  destruct (fileExists _ _); [|discriminate].
  destruct (Eff.outcome (invokePoetry _ _ _)) as [[q|]|e] eqn:Hinv;
    [|discriminate..].
  cbn. destruct (fileExists _ q); [|discriminate].
  intros [= <-]. by eapply invokePoetry_truthy.
Qed.

(** [getInterpreterFromPoetry] in terms of the two lookups it makes. *)
Lemma getInterpreterFromPoetry_run (poetryCwd : jsstring) :
  let resolution := getInterpreterPathFromPoetry sc poetryCwd false in
  getInterpreterFromPoetry sc poetryCwd =
    match Eff.outcome resolution with
    | Resolved (Some interpreterPath) =>
        match getInterpreterInformation (helper sc) interpreterPath with
        | Resolved (Some details) =>
            (Eff.journal resolution
               ++ [GetInterpreterInformation interpreterPath;
                   HasInterpretersResolve true],
             Resolved (Some (<["poetryWorkspaceFolder" := VString poetryCwd]>
                               (<["type" := VKind Poetry]>
                                  (<["path" := VString interpreterPath]> details)))))
        | Resolved None =>
            (Eff.journal resolution ++ [GetInterpreterInformation interpreterPath],
             Resolved None)
        | Rejected e =>
            (Eff.journal resolution ++ [GetInterpreterInformation interpreterPath],
             Rejected e)
        end
    | Resolved None => (Eff.journal resolution, Resolved None)
    | Rejected e => (Eff.journal resolution, Rejected e)
    end.
Proof.
  intros resolution. unfold getInterpreterFromPoetry.
  pose proof (getInterpreterPathFromPoetry_truthy poetryCwd false) as Ht.
  fold resolution in Ht |- *. clearbody resolution.
  destruct resolution as [j [[p|]|e]]; cbn in Ht |- *.
  - rewrite (Ht p eq_refl).
    unfold helper_getInterpreterInformation, Eff.call.
    by destruct (getInterpreterInformation _ _) as [[d|]|e].
  - by rewrite app_nil_r.
  - done.
Qed.

End ResolutionFacts.

(* ===================================================================== *)
(** ** Properties of detection *)
(* ===================================================================== *)

(** The healthy sample project is detected, with the record spelled
    out. *)
Lemma healthy_project_is_detected :
  Eff.outcome (PoetryService.getInterpreterFromPoetry Sample.healthy
                 Sample.projectDir)
  = Resolved (Some (<["poetryWorkspaceFolder" := VString Sample.projectDir]>
                      (<["type" := VKind Poetry]>
                         (<["path" := VString Sample.venvPython]>
                            Sample.details)))).
Proof.
  rewrite getInterpreterFromPoetry_run, getInterpreterPathFromPoetry_run.
  replace (fileExists (fs Sample.healthy) (lockFileOf Sample.projectDir))
    with true by by_computation.
  replace (Eff.outcome (PoetryService.invokePoetry Sample.healthy
                          (js "env info -p") Sample.projectDir))
    with (Resolved (Some Sample.venvPython)) by by_computation.
  cbn [Eff.outcome Eff.journal snd fst].
  replace (fileExists (fs Sample.healthy) Sample.venvPython)
    with true by by_computation.
  reflexivity.
Qed.

(** C5. An interpreter record built by [getInterpreterFromPoetry] has the
    resolved interpreter path in [path], the Poetry tag in [type] and the
    project working directory in [poetryWorkspaceFolder], all other
    properties being those of the interpreter information; no record is
    built when the path resolution or the information lookup yields
    nothing. *)
Theorem C5_record_carries_path_type_and_folder
    (sc : IServiceContainer) (poetryCwd : jsstring) :
  let run := PoetryService.getInterpreterFromPoetry sc poetryCwd in
  let resolution := PoetryService.getInterpreterPathFromPoetry sc poetryCwd false in
  (forall record : PythonInterpreter,
      Eff.outcome run = Resolved (Some record) ->
      exists interpreterPath details,
        Eff.outcome resolution = Resolved (Some interpreterPath)
        /\ getInterpreterInformation (helper sc) interpreterPath
           = Resolved (Some details)
        /\ record !! "path" = Some (VString interpreterPath)
        /\ record !! "type" = Some (VKind Poetry)
        /\ record !! "poetryWorkspaceFolder" = Some (VString poetryCwd)
        /\ forall key, key <> "path" -> key <> "type" ->
                       key <> "poetryWorkspaceFolder" ->
                       record !! key = details !! key)
  /\ (Eff.outcome resolution = Resolved None -> Eff.outcome run = Resolved None)
  /\ (forall interpreterPath,
        Eff.outcome resolution = Resolved (Some interpreterPath) ->
        getInterpreterInformation (helper sc) interpreterPath = Resolved None ->
        Eff.outcome run = Resolved None).
Proof.
  intros run resolution. subst run.
  rewrite getInterpreterFromPoetry_run. fold resolution.
  destruct (Eff.outcome resolution) as [[p|]|e].
  - destruct (getInterpreterInformation (helper sc) p) as [[d|]|e] eqn:Hinfo;
      cbn; (split; [|split]); try discriminate; try done.
    + intros record [= <-]. exists p, d.
      split; [done|]. split; [done|].
      split; [by simplify_map_eq|]. split; [by simplify_map_eq|].
      split; [by simplify_map_eq|].
      intros key H1 H2 H3. by rewrite !lookup_insert_ne.
    + intros q [= <-]. congruence.
    + intros q [= <-]. congruence.
  - cbn. split; [discriminate|]. split; [done|]. discriminate.
  - cbn. split; [discriminate|]. split; discriminate.
Qed.

Lemma C5_record_carries_path_type_and_folder_witness :
  exists record : PythonInterpreter,
    Eff.outcome (PoetryService.getInterpreterFromPoetry Sample.healthy
                   Sample.projectDir) = Resolved (Some record)
    /\ record !! "path" = Some (VString Sample.venvPython)
    /\ record !! "type" = Some (VKind Poetry)
    /\ record !! "poetryWorkspaceFolder" = Some (VString Sample.projectDir).
Proof.
  eexists. split; [exact healthy_project_is_detected|].
  destruct (proj1 (C5_record_carries_path_type_and_folder
                     Sample.healthy Sample.projectDir)
                  _ healthy_project_is_detected)
    as (p & d & Hp & _ & Hpath & Htype & Hfolder & _).
  assert (Hres : Eff.outcome (PoetryService.getInterpreterPathFromPoetry
                                Sample.healthy Sample.projectDir false)
                 = Resolved (Some Sample.venvPython)) by by_computation.
  rewrite Hres in Hp. injection Hp as <-. auto.
Defined.

(** C8. For every resource, [getInterpretersImplementation] resolves, never
    rejects (also when detection rejects), and the list it resolves to
    has at most one interpreter: it is empty when no poetry working
    directory is found or detection fails, and holds the detected
    interpreter otherwise. *)
Theorem C8_implementation_always_resolves_with_at_most_one
    (sc : IServiceContainer) (resource : option Uri) :
  let run := PoetryService.getInterpretersImplementation sc resource in
  let poetryCwd := PoetryService.getPoetryWorkingDirectory sc resource in
  exists interpreters : list PythonInterpreter,
    Eff.outcome run = Resolved interpreters
    /\ length interpreters <= 1
    /\ (truthy_opt poetryCwd = false -> interpreters = [])
    /\ forall cwd, poetryCwd = Some cwd -> truthy cwd = true ->
         let detection := PoetryService.getInterpreterFromPoetry sc cwd in
         (forall e, Eff.outcome detection = Rejected e -> interpreters = [])
         /\ (Eff.outcome detection = Resolved None -> interpreters = [])
         /\ (forall item, Eff.outcome detection = Resolved (Some item) ->
                          interpreters = [item]).
Proof.
  intros run poetryCwd. subst run.
  unfold PoetryService.getInterpretersImplementation. fold poetryCwd.
  destruct poetryCwd as [cwd|]; cbn [truthy_opt].
  - destruct (truthy cwd) eqn:Hcwd.
    + unfold Eff.then_.
      destruct (PoetryService.getInterpreterFromPoetry sc cwd)
        as [j [[item|]|e]] eqn:Hdet; cbn.
      * exists [item]. split; [done|]. split; [cbn; lia|]. split; [done|].
        intros ? [= <-] _. rewrite Hdet. cbn.
        repeat split; intros; congruence.
      * exists []. split; [done|]. split; [cbn; lia|]. split; [done|].
        intros ? [= <-] _. rewrite Hdet. cbn.
        repeat split; intros; congruence.
      * exists []. split; [done|]. split; [cbn; lia|]. split; [done|].
        intros ? [= <-] _. rewrite Hdet. cbn.
        repeat split; intros; congruence.
    + exists []. split; [done|]. split; [cbn; lia|]. split; [done|].
      intros ? [= <-] ?. congruence.
  - exists []. split; [done|]. split; [cbn; lia|]. split; [done|].
    intros ? [=].
Qed.

Lemma C8_implementation_always_resolves_with_at_most_one_witness :
  (exists item,
     Eff.outcome (PoetryService.getInterpretersImplementation Sample.healthy None)
     = Resolved [item])
  /\ Eff.outcome (PoetryService.getInterpretersImplementation Sample.unreadable None)
     = Resolved [].
Proof.
  assert (Hcwd : forall sc, sc = Sample.healthy \/ sc = Sample.unreadable ->
                   PoetryService.getPoetryWorkingDirectory sc None
                   = Some Sample.projectDir)
    by (intros sc [-> | ->]; reflexivity).
  assert (Ht : truthy Sample.projectDir = true) by reflexivity.
  split.
  - destruct (C8_implementation_always_resolves_with_at_most_one
                Sample.healthy None) as (l & Hrun & _ & _ & Hdet).
    destruct (Hdet _ (Hcwd _ (or_introl eq_refl)) Ht) as (_ & _ & Hsome).
    eexists. rewrite Hrun. f_equal. apply Hsome.
    exact healthy_project_is_detected.
  - destruct (C8_implementation_always_resolves_with_at_most_one
                Sample.unreadable None) as (l & Hrun & _ & _ & Hdet).
    destruct (Hdet _ (Hcwd _ (or_intror eq_refl)) Ht) as (Hrej & _ & _).
    rewrite Hrun. f_equal.
    apply (Hrej (newError (js "cannot run python"))). by_computation.
Defined.

(** C10. When [pythonPath] does not contain the path separator followed
    by the base name of [dir] and a hyphen, [isRelatedPoetryEnvironment]
    returns [false] without any call to a collaborator, the external tool
    included; when it returns [true], that substring occurs in
    [pythonPath] and the poetry path resolution for [dir] yielded a
    path. *)
Theorem C10_related_environment_needs_prefix_and_resolution
    (sc : IServiceContainer) (dir pythonPath : jsstring) :
  let run := PoetryService.isRelatedPoetryEnvironment sc dir pythonPath in
  (~ contains pythonPath (envPrefix dir) -> run = ([], Resolved false))
  /\ (Eff.outcome run = Resolved true ->
      contains pythonPath (envPrefix dir)
      /\ exists p,
           Eff.outcome (PoetryService.getInterpreterPathFromPoetry sc dir true)
           = Resolved (Some p)).
Proof.
  intros run. subst run. unfold PoetryService.isRelatedPoetryEnvironment.
  fold (envPrefix dir).
  destruct (indexOf pythonPath (envPrefix dir) =? -1)%Z eqn:Hidx.
  - apply Z.eqb_eq, indexOf_absent in Hidx. split; [done|]. discriminate.
  - apply Z.eqb_neq in Hidx. split.
    + intros Habsent. by apply indexOf_absent in Habsent.
    + intros Hrun. split.
      * by apply indexOf_found.
      * destruct (PoetryService.getInterpreterPathFromPoetry sc dir true)
          as [j [[p|]|e]]; cbn in Hrun |- *; [by eexists | discriminate..].
Qed.

Lemma C10_related_environment_needs_prefix_and_resolution_witness :
  contains Sample.venvPython (envPrefix Sample.projectDir)
  /\ PoetryService.isRelatedPoetryEnvironment
       Sample.healthy Sample.projectDir (js "/usr/bin/python")
     = ([], Resolved false).
Proof.
  assert (Hrelated : Eff.outcome
                       (PoetryService.isRelatedPoetryEnvironment
                          Sample.healthy Sample.projectDir Sample.venvPython)
                     = Resolved true) by by_computation.
  assert (Habsent : ~ contains (js "/usr/bin/python") (envPrefix Sample.projectDir))
    by (apply indexOf_absent; by_computation).
  split.
  - exact (proj1 (proj2 (C10_related_environment_needs_prefix_and_resolution
                           Sample.healthy Sample.projectDir Sample.venvPython)
                        Hrelated)).
  - exact (proj1 (C10_related_environment_needs_prefix_and_resolution
                    Sample.healthy Sample.projectDir (js "/usr/bin/python"))
                 Habsent).
Defined.

(* ===================================================================== *)
(** ** Properties of the activation-command provider *)
(* ===================================================================== *)

Section ProviderFacts.

Import PoetryActivationCommandProvider.

Lemma notPoetry_false (interpreter : option PythonInterpreter) :
  notPoetry interpreter = false <-> exists i, interpreter = Some i /\ hasType Poetry i.
Proof.
  unfold notPoetry, hasType. destruct interpreter as [i|].
  - rewrite negb_false_iff, bool_decide_eq_true. split; [eauto|].
    by intros (? & [= <-] & ?).
  - split; [discriminate | by intros (? & ? & _)].
Qed.

Lemma notPoetry_true (interpreter : option PythonInterpreter) :
  notPoetry interpreter = true <->
  interpreter = None \/ exists i, interpreter = Some i /\ ~ hasType Poetry i.
Proof.
  unfold notPoetry, hasType. destruct interpreter as [i|].
  - rewrite negb_true_iff, bool_decide_eq_false. split; [eauto|].
    by intros [? | (? & [= <-] & ?)].
  - split; [eauto | done].
Qed.

End ProviderFacts.

(** C4. When the active interpreter of a resource (for
    [getActivationCommandsForInterpreter]: the details of the interpreter)
    has type Poetry, the provider returns a list of exactly one command,
    the configured poetry executable quoted as a command argument followed
    by [" shell"]; for an interpreter of any other type, or when none is
    found, it returns [undefined]. *)
Theorem C4_activation_command_for_poetry_only
    (TerminalShellType : Type) (fileToCommandArgument : jsstring -> jsstring)
    (interpreterService : IInterpreterService) (poetryService : IPoetryService)
    (resource : option Uri) (pythonPath : jsstring) (shell : TerminalShellType)
    (interpreter : option PythonInterpreter) :
  let command := shellCommand fileToCommandArgument (executable poetryService) in
  let byResource :=
    Eff.outcome
      (PoetryActivationCommandProvider.getActivationCommands
         TerminalShellType fileToCommandArgument interpreterService
         poetryService resource shell) in
  let byPath :=
    Eff.outcome
      (PoetryActivationCommandProvider.getActivationCommandsForInterpreter
         TerminalShellType fileToCommandArgument interpreterService
         poetryService pythonPath shell) in
  (getActiveInterpreter interpreterService resource = Resolved interpreter ->
     ((exists i, interpreter = Some i /\ hasType Poetry i) ->
        byResource = Resolved (Some [command]))
     /\ ((interpreter = None
          \/ exists i, interpreter = Some i /\ ~ hasType Poetry i) ->
         byResource = Resolved None))
  /\ (getInterpreterDetails interpreterService pythonPath = Resolved interpreter ->
      ((exists i, interpreter = Some i /\ hasType Poetry i) ->
         byPath = Resolved (Some [command]))
      /\ ((interpreter = None
           \/ exists i, interpreter = Some i /\ ~ hasType Poetry i) ->
          byPath = Resolved None)).
Proof.
  intros command byResource byPath. subst byResource byPath.
  unfold PoetryActivationCommandProvider.getActivationCommands,
    PoetryActivationCommandProvider.getActivationCommandsForInterpreter, Eff.call.
  split; intros ->; cbn [Eff.bind]; split; intros H.
  - apply notPoetry_false in H. by rewrite H.
  - apply notPoetry_true in H. by rewrite H.
  - apply notPoetry_false in H. by rewrite H.
  - apply notPoetry_true in H. by rewrite H.
Qed.

Lemma C4_activation_command_for_poetry_only_witness :
  Eff.outcome
    (PoetryActivationCommandProvider.getActivationCommands
       nat (fun s => s) (Sample.interpreters (Some Sample.poetryInterpreter))
       {| executable := js "poetry" |} None 0)
  = Resolved (Some [js "poetry shell"])
  /\ Eff.outcome
       (PoetryActivationCommandProvider.getActivationCommandsForInterpreter
          nat (fun s => s) (Sample.interpreters (Some Sample.condaInterpreter))
          {| executable := js "poetry" |} (js "/opt/conda/bin/python") 0)
     = Resolved None.
Proof.
  assert (Hp : hasType Poetry Sample.poetryInterpreter) by by_computation.
  assert (Hc : ~ hasType Poetry Sample.condaInterpreter) by by_computation.
  split.
  - exact (proj1 (proj1 (C4_activation_command_for_poetry_only
                           nat (fun s => s)
                           (Sample.interpreters (Some Sample.poetryInterpreter))
                           {| executable := js "poetry" |} None [] 0
                           (Some Sample.poetryInterpreter)) eq_refl)
                 (ex_intro _ _ (conj eq_refl Hp))).
  - exact (proj2 (proj2 (C4_activation_command_for_poetry_only
                           nat (fun s => s)
                           (Sample.interpreters (Some Sample.condaInterpreter))
                           {| executable := js "poetry" |} None
                           (js "/opt/conda/bin/python") 0
                           (Some Sample.condaInterpreter)) eq_refl)
                 (or_intror (ex_intro _ _ (conj eq_refl Hc)))).
Defined.

(** C9. [isShellSupported] answers [false] for every terminal shell type,
    although [getActivationCommands] can return a command for that same
    shell. *)
Theorem C9_no_shell_is_reported_as_supported
    (TerminalShellType : Type) (shell : TerminalShellType) :
  PoetryActivationCommandProvider.isShellSupported TerminalShellType shell = false
  /\ exists interpreterService poetryService command,
       Eff.outcome
         (PoetryActivationCommandProvider.getActivationCommands
            TerminalShellType (fun s => s) interpreterService poetryService
            None shell)
       = Resolved (Some [command]).
Proof.
  split; [reflexivity|].
  exists (Sample.interpreters (Some Sample.poetryInterpreter)),
    {| executable := js "poetry" |}, (js "poetry shell").
  by_computation.
Qed.

(* ===================================================================== *)
(** ** Further properties of [invokePoetry] *)
(* ===================================================================== *)

Section InvocationCases.

Import PoetryService.

Variable sc : IServiceContainer.

Lemma invokePoetryCatch_outcome (error : JsError) :
  Eff.outcome (invokePoetryCatch sc error) = Resolved None.
Proof. reflexivity. Qed.

Lemma invokePoetryCatch_journal (error : JsError) :
  exists m,
    Eff.journal (invokePoetryCatch sc error)
    = [LogWarning (js "Error in invoking Poetry") (Some error);
       LogWarning m None;
       ShowMessage (invokePoetryWarning (errorMessageText error)) MsgWarning].
Proof. eexists. reflexivity. Qed.

(** [invokePoetry], case by case on what the collaborators answer. *)
Lemma invokePoetry_run (arg root : jsstring) :
  let started := [CreateProcessService (UriFile root);
                  Exec (executable sc) poetryArgs root] in
  let caught before error : Eff.t (option jsstring) :=
    (before ++ Eff.journal (invokePoetryCatch sc error), Resolved None) in
  invokePoetry sc arg root =
    match create (processServiceFactory sc) (UriFile root) with
    | Rejected e => caught [CreateProcessService (UriFile root)] e
    | Resolved ps =>
        match exec ps (executable sc) poetryArgs root with
        | Rejected e => caught started e
        | Resolved None => (started, Resolved None)
        | Resolved (Some result) =>
            if (0 <? length (trimmedOrEmpty (stderr result)))
               && (length (trimmedOrEmpty (stdout result)) =? 0)
            then caught started (newError (trimmedOrEmpty (stderr result)))
            else
              match stdout result with
              | Some printed =>
                  (started ++ [LogWarning (pythonPathOf printed) None],
                   Resolved (Some (pythonPathOf printed)))
              | None => caught started (typeErrorOnUndefined "trim")
              end
        end
    end.
Proof.
  intros started caught. subst started caught.
  unfold invokePoetry, processServiceFactory_create, processService_exec, Eff.call.
  fold poetryArgs.
  destruct (create _ _) as [ps|e]; [|reflexivity].
  cbn [Eff.bind Eff.try_catch].
  destruct (exec ps _ _ _) as [[result|]|e]; [|reflexivity..].
  destruct (_ && _); [reflexivity|].
  destruct (stdout result); reflexivity.
Qed.

End InvocationCases.

Section InvocationOutcomes.

Import PoetryService.

Variable sc : IServiceContainer.

Lemma usable_condition (result : ExecutionResult) :
  ~ stderrOnly result <->
  (0 <? length (trimmedOrEmpty (stderr result)))
  && (length (trimmedOrEmpty (stdout result)) =? 0) = false.
Proof.
  split.
  - intros Hnot. apply not_true_is_false. intros Hc.
    by apply Hnot, condition_stderrOnly.
  - intros Hc Honly. apply stderrOnly_condition in Honly. congruence.
Qed.

Lemma count_caught (p : Event -> bool) (before : list Event) (error : JsError) :
  count p (before ++ Eff.journal (invokePoetryCatch sc error))
  = count p before
    + (if p (LogWarning (js "Error in invoking Poetry") (Some error)) then 1 else 0)
    + (if p (ShowMessage (invokePoetryWarning (errorMessageText error)) MsgWarning)
       then 1 else 0)
    + count p (match Eff.journal (invokePoetryCatch sc error) with
               | [_; second; _] => [second]
               | _ => []
               end).
Proof.
  destruct (invokePoetryCatch_journal sc error) as [m ->].
  rewrite count_app, !count_cons, count_nil. lia.
Qed.

End InvocationOutcomes.

(** X1. [invokePoetry] never rejects.  When it returns a path, nothing is
    shown to the user.  When it returns [undefined], either exactly one
    warning was shown, or the process resolved without a result object
    and then nothing was logged or shown at all. *)
Theorem invokePoetry_resolves_and_reports
    (sc : IServiceContainer) (arg rootPath : jsstring) :
  let run := PoetryService.invokePoetry sc arg rootPath in
  exists v,
    Eff.outcome run = Resolved v
    /\ (is_Some v -> count isShowMessage (Eff.journal run) = 0)
    /\ (v = None ->
        (count isShowMessage (Eff.journal run) = 1
         /\ count isWarningShown (Eff.journal run) = 1)
        \/ (exists ps,
              create (processServiceFactory sc) (UriFile rootPath) = Resolved ps
              /\ exec ps (PoetryService.executable sc) poetryArgs rootPath
                 = Resolved None
              /\ Eff.journal run
                 = [CreateProcessService (UriFile rootPath);
                    Exec (PoetryService.executable sc) poetryArgs rootPath])).
Proof.
  intros run. subst run. rewrite invokePoetry_run.
  destruct (create _ _) as [ps|e] eqn:Hcreate.
  - destruct (exec ps _ _ _) as [[result|]|e] eqn:Hexec.
    + destruct (_ && _).
      * exists None. cbn [Eff.outcome Eff.journal fst snd].
        split; [done|]. split; [by intros [? ?]|]. intros _. left.
        destruct (invokePoetryCatch_journal sc
                    (newError (PoetryService.trimmedOrEmpty (stderr result))))
          as [m ->].
        split; reflexivity.
      * destruct (stdout result) as [printed|].
        -- eexists. split; [reflexivity|]. split; [reflexivity|]. discriminate.
        -- exists None. cbn [Eff.outcome Eff.journal fst snd].
           split; [done|]. split; [by intros [? ?]|]. intros _. left.
           destruct (invokePoetryCatch_journal sc (typeErrorOnUndefined "trim"))
             as [m ->].
           split; reflexivity.
    + exists None. split; [done|]. split; [by intros [? ?]|]. intros _. right.
      by exists ps.
    + exists None. cbn [Eff.outcome Eff.journal fst snd].
      split; [done|]. split; [by intros [? ?]|]. intros _. left.
      destruct (invokePoetryCatch_journal sc e) as [m ->]. split; reflexivity.
  - exists None. cbn [Eff.outcome Eff.journal fst snd].
    split; [done|]. split; [by intros [? ?]|]. intros _. left.
    destruct (invokePoetryCatch_journal sc e) as [m ->]. split; reflexivity.
Qed.

(** X2. [invokePoetry] returns a path exactly when the process service is
    created, the process resolves with a result that has a stdout and is
    not a report on stderr only, and then the path is the trimmed stdout
    joined with ["bin"] and ["python"].  Text on stderr beside text on
    stdout does not count as a failure. *)
Theorem invokePoetry_path_iff_usable_output
    (sc : IServiceContainer) (arg rootPath p : jsstring) :
  Eff.outcome (PoetryService.invokePoetry sc arg rootPath) = Resolved (Some p)
  <->
  exists ps result printed,
    create (processServiceFactory sc) (UriFile rootPath) = Resolved ps
    /\ exec ps (PoetryService.executable sc) poetryArgs rootPath
       = Resolved (Some result)
    /\ usableOutput result printed
    /\ p = pythonPathOf printed.
Proof.
  rewrite invokePoetry_run. split.
  - destruct (create _ _) as [ps|e]; [|discriminate].
    destruct (exec ps _ _ _) as [[result|]|e] eqn:Hexec; [|discriminate..].
    destruct (_ && _) eqn:Hcond; [discriminate|].
    destruct (stdout result) as [printed|] eqn:Hout; [|discriminate].
    intros [= <-]. exists ps, result, printed.
    split; [done|]. split; [done|]. split; [|done].
    split; [done|]. apply (proj2 (usable_condition result)).
    by rewrite Hout.
  - intros (ps & result & printed & -> & -> & [Hout Husable] & ->).
    apply (proj1 (usable_condition result)) in Husable.
    by rewrite Husable, Hout.
Qed.

Lemma invokePoetry_resolves_and_reports_witness :
  count isShowMessage
    (Eff.journal (PoetryService.invokePoetry Sample.healthy (js "env info -p")
                    Sample.projectDir)) = 0
  /\ count isWarningShown
       (Eff.journal (PoetryService.invokePoetry Sample.unstartable
                       (js "env info -p") Sample.projectDir)) = 1.
Proof.
  split.
  - destruct (invokePoetry_resolves_and_reports
                Sample.healthy (js "env info -p") Sample.projectDir)
      as (v & Hv & Hsome & _).
    apply Hsome.
    assert (Hrun : Eff.outcome (PoetryService.invokePoetry Sample.healthy
                                  (js "env info -p") Sample.projectDir)
                   = Resolved (Some Sample.venvPython)) by by_computation.
    rewrite Hrun in Hv. injection Hv as <-. by eexists.
  - destruct (invokePoetry_resolves_and_reports
                Sample.unstartable (js "env info -p") Sample.projectDir)
      as (v & Hv & _ & Hnone).
    assert (Hrun : Eff.outcome (PoetryService.invokePoetry Sample.unstartable
                                  (js "env info -p") Sample.projectDir)
                   = Resolved None) by by_computation.
    rewrite Hrun in Hv. injection Hv as <-.
    destruct (Hnone eq_refl) as [[_ H] | (ps & Hcreate & _)]; [exact H|].
    discriminate Hcreate.
Defined.

(* ===================================================================== *)
(** ** The shape of the paths involved *)
(* ===================================================================== *)

Section PathFacts.

Import NodePath.

Lemma segments_nonempty (p : jsstring) : segments p <> [].
Proof.
  destruct p as [|c p]; cbn [segments]; [done|].
  destruct (c =? CHAR_FORWARD_SLASH)%N; [done|].
  by destruct (segments p).
Qed.

(** Splitting at a separator splits the list of segments. *)
Lemma segments_app_sep (a b : jsstring) :
  segments (a ++ sep ++ b) = segments a ++ segments b.
Proof.
  induction a as [|c a IH].
  - reflexivity.
  - cbn [app segments]. change (a ++ CHAR_FORWARD_SLASH :: b) with (a ++ sep ++ b).
    rewrite IH. destruct (c =? CHAR_FORWARD_SLASH)%N; [done|].
    pose proof (segments_nonempty a) as Hne.
    by destruct (segments a).
Qed.

Lemma joinWith_snoc2 (parts : list jsstring) (a b : jsstring) :
  exists pre, joinWith sep (parts ++ [a; b]) = pre ++ a ++ sep ++ b.
Proof.
  induction parts as [|x parts [pre IH]].
  - by exists [].
  - exists (x ++ sep ++ pre). cbn [app joinWith].
    destruct (parts ++ [a; b]) eqn:E.
    + by destruct parts.
    + rewrite IH. by rewrite <- !app_assoc.
Qed.

Lemma normalizeString_bin_python (front : list jsstring) (allowAboveRoot : bool) :
  exists pre,
    joinWith sep (rev (fold_left (normalizeStep allowAboveRoot)
                                 (front ++ [js "bin"; js "python"]) []))
    = pre ++ js "bin/python".
Proof.
  rewrite fold_left_app.
  set (res := fold_left _ front []).
  change (fold_left (normalizeStep allowAboveRoot) [js "bin"; js "python"] res)
    with (js "python" :: js "bin" :: res).
  cbn [rev]. rewrite <- app_assoc. cbn [app].
  destruct (joinWith_snoc2 (rev res) (js "bin") (js "python")) as [pre ->].
  by exists pre.
Qed.

Lemma hasTrailingSeparator_letter (front word : jsstring) (c : N) :
  (c =? CHAR_FORWARD_SLASH)%N = false ->
  hasTrailingSeparator (front ++ word ++ [c]) = false.
Proof.
  intros Hc. unfold hasTrailingSeparator.
  by rewrite !rev_app_distr; cbn [rev app]; rewrite Hc.
Qed.

(** What [normalize] keeps at the end of a path that ends in a letter. *)
Lemma normalize_suffix (p suffix : jsstring) :
  p <> [] -> suffix <> [] ->
  hasTrailingSeparator p = false ->
  (exists pre, normalizeString p (negb (isAbsolute p)) = pre ++ suffix) ->
  exists pre, normalize p = pre ++ suffix.
Proof.
  intros Hp Hs Htrail [pre Hq]. destruct p as [|c p]; [done|].
  unfold normalize. cbv zeta. rewrite Htrail, Hq.
  destruct (pre ++ suffix) eqn:E.
  - destruct pre, suffix; done.
  - rewrite <- E. destruct (isAbsolute (c :: p)); [|by exists pre].
    exists (sep ++ pre). by rewrite app_assoc.
Qed.

Lemma join_two (a b : jsstring) :
  a <> [] -> b <> [] -> join [a; b] = normalize (a ++ sep ++ b).
Proof. destruct a, b; done. Qed.

Lemma join_three (a b c : jsstring) :
  b <> [] -> c <> [] ->
  join [a; b; c]
  = match a with
    | [] => normalize (b ++ sep ++ c)
    | _ :: _ => normalize (a ++ sep ++ b ++ sep ++ c)
    end.
Proof. destruct a, b, c; done. Qed.

(** Whatever the executable printed, the interpreter path derived from it
    ends in ["bin/python"]. *)
Lemma pythonPathOf_suffix (printed : jsstring) :
  exists pre, pythonPathOf printed = pre ++ js "bin/python".
Proof.
  unfold pythonPathOf. rewrite join_three by done.
  destruct (trim printed) as [|c t] eqn:Ht.
  - by exists [].
  - change (js "bin" ++ sep ++ js "python") with (js "bin/python").
    apply normalize_suffix; [done | done | |].
    + change (js "bin/python") with (js "bin/pytho" ++ [110%N]).
      rewrite (app_assoc _ sep). by apply hasTrailingSeparator_letter.
    + unfold normalizeString. rewrite segments_app_sep.
      change (segments (js "bin/python")) with [js "bin"; js "python"].
      apply normalizeString_bin_python.
Qed.

Lemma hasTrailingSeparator_app (front file : jsstring) :
  file <> [] ->
  hasTrailingSeparator (front ++ file) = hasTrailingSeparator file.
Proof.
  intros Hfile. unfold hasTrailingSeparator. rewrite rev_app_distr.
  destruct (rev file) as [|c r] eqn:E; [|done].
  apply (f_equal (@rev N)) in E. rewrite rev_involutive in E. done.
Qed.

Lemma normalize_ext (p p' : jsstring) :
  p <> [] -> p' <> [] ->
  isAbsolute p = isAbsolute p' ->
  hasTrailingSeparator p = hasTrailingSeparator p' ->
  (forall b, normalizeString p b = normalizeString p' b) ->
  normalize p = normalize p'.
Proof.
  intros Hp Hp' Habs Htrail Hnorm. destruct p, p'; try done.
  unfold normalize. cbv zeta. by rewrite Habs, Htrail, Hnorm.
Qed.

(** A separator at the end of a directory does not change the files
    [path.join] finds below it. *)
Lemma join_trailing_separator (dir file : jsstring) :
  dir <> [] -> file <> [] ->
  join [dir ++ sep; file] = join [dir; file].
Proof.
  intros Hdir Hfile.
  rewrite !join_two by (try done; by destruct dir).
  apply normalize_ext.
  - by destruct dir.
  - by destruct dir.
  - by destruct dir.
  - rewrite <- !app_assoc, !(app_assoc _ sep file), !app_assoc.
    by rewrite !hasTrailingSeparator_app.
  - intros b. unfold normalizeString.
    rewrite <- (app_assoc dir sep), !segments_app_sep.
    change (segments (sep ++ file)) with (segments ([] ++ sep ++ file)).
    rewrite segments_app_sep. change (segments []) with [@nil N].
    by rewrite !fold_left_app.
Qed.

End PathFacts.

(** X3. Every path [invokePoetry] returns is non-empty and ends in
    ["bin/python"], whatever the executable printed. *)
Theorem invokePoetry_path_ends_in_bin_python
    (sc : IServiceContainer) (arg rootPath p : jsstring) :
  Eff.outcome (PoetryService.invokePoetry sc arg rootPath) = Resolved (Some p) ->
  endsWith p (js "bin/python") /\ p <> [].
Proof.
  rewrite invokePoetry_run.
  destruct (create _ _) as [ps|e]; [|discriminate].
  destruct (exec ps _ _ _) as [[result|]|e]; [|discriminate..].
  destruct (_ && _); [discriminate|].
  destruct (stdout result) as [printed|]; [|discriminate].
  intros [= <-]. destruct (pythonPathOf_suffix printed) as [pre Hp].
  split; [by exists pre|]. rewrite Hp. by destruct pre.
Qed.

Lemma invokePoetry_path_ends_in_bin_python_witness :
  endsWith Sample.venvPython (js "bin/python").
Proof.
  assert (Hrun : Eff.outcome (PoetryService.invokePoetry Sample.healthy
                                (js "env info -p") Sample.projectDir)
                 = Resolved (Some Sample.venvPython)) by by_computation.
  exact (proj1 (invokePoetry_path_ends_in_bin_python
                  Sample.healthy (js "env info -p") Sample.projectDir
                  Sample.venvPython Hrun)).
Defined.

(** X4. The lock file looked for does not depend on a separator at the end
    of the working directory. *)
Theorem checkIfPoetryLockFileExists_trailing_separator
    (sc : IServiceContainer) (cwd : jsstring) :
  cwd <> [] ->
  PoetryService.checkIfPoetryLockFileExists sc (cwd ++ NodePath.sep)
  = PoetryService.checkIfPoetryLockFileExists sc cwd.
Proof.
  intros Hcwd. unfold PoetryService.checkIfPoetryLockFileExists.
  by rewrite join_trailing_separator.
Qed.

Lemma checkIfPoetryLockFileExists_trailing_separator_witness :
  PoetryService.checkIfPoetryLockFileExists Sample.healthy (js "/home/me/app/")
  = PoetryService.checkIfPoetryLockFileExists Sample.healthy Sample.projectDir.
Proof.
  assert (Hne : Sample.projectDir <> []) by by_computation.
  exact (checkIfPoetryLockFileExists_trailing_separator
           Sample.healthy Sample.projectDir Hne).
Defined.

(* ===================================================================== *)
(** ** Further properties of [getInterpreterPathFromPoetry] *)
(* ===================================================================== *)

Section LookupFacts.

Import PoetryService.

Variable sc : IServiceContainer.

Lemma invokePoetry_success_journal (arg root p : jsstring) :
  Eff.outcome (invokePoetry sc arg root) = Resolved (Some p) ->
  Eff.journal (invokePoetry sc arg root)
  = [CreateProcessService (UriFile root);
     Exec (executable sc) poetryArgs root;
     LogWarning p None].
Proof.
  rewrite invokePoetry_run.
  destruct (create _ _) as [ps|e]; [|discriminate].
  destruct (exec ps _ _ _) as [[result|]|e]; [|discriminate..].
  destruct (_ && _); [discriminate|].
  destruct (stdout result) as [printed|]; [|discriminate].
  by intros [= <-].
Qed.

Lemma invokePoetry_path_shape (arg root p : jsstring) :
  Eff.outcome (invokePoetry sc arg root) = Resolved (Some p) ->
  endsWith p (js "bin/python").
Proof.
  rewrite invokePoetry_run.
  destruct (create _ _) as [ps|e]; [|discriminate].
  destruct (exec ps _ _ _) as [[result|]|e]; [|discriminate..].
  destruct (_ && _); [discriminate|].
  destruct (stdout result) as [printed|]; [|discriminate].
  intros [= <-]. apply pythonPathOf_suffix.
Qed.

Lemma invokePoetry_calls (arg root : jsstring) :
  Forall (lookupCall sc root) (Eff.journal (invokePoetry sc arg root)).
Proof.
  rewrite invokePoetry_run.
  assert (Hcatch : forall e,
             Forall (lookupCall sc root) (Eff.journal (invokePoetryCatch sc e))).
  { intros e. destruct (invokePoetryCatch_journal sc e) as [m ->].
    repeat constructor. }
  destruct (create _ _) as [ps|e].
  - destruct (exec ps _ _ _) as [[result|]|e].
    + destruct (_ && _).
      * apply Forall_app. split; [repeat constructor | apply Hcatch].
      * destruct (stdout result) as [printed|].
        -- repeat constructor.
        -- apply Forall_app. split; [repeat constructor | apply Hcatch].
    + repeat constructor.
    + apply Forall_app. split; [repeat constructor | apply Hcatch].
  - apply Forall_app. split; [repeat constructor | apply Hcatch].
Qed.

(** A lookup that finds an interpreter made exactly five calls. *)
Lemma getInterpreterPathFromPoetry_found (cwd : jsstring) (ignoreErrors : bool)
    (p : jsstring) :
  Eff.outcome (getInterpreterPathFromPoetry sc cwd ignoreErrors) = Resolved (Some p) ->
  fileExists (fs sc) (lockFileOf cwd) = true
  /\ fileExists (fs sc) p = true
  /\ endsWith p (js "bin/python")
  /\ Eff.journal (getInterpreterPathFromPoetry sc cwd ignoreErrors)
     = foundJournal sc cwd p.
Proof.
  rewrite getInterpreterPathFromPoetry_run.
  destruct (fileExists (fs sc) (lockFileOf cwd)); [|discriminate].
  destruct (Eff.outcome (invokePoetry _ _ _)) as [[q|]|e] eqn:Hinv;
    [|discriminate..].
  cbn [Eff.outcome Eff.journal fst snd].
  destruct (fileExists (fs sc) q) eqn:Hq; [|discriminate].
  intros [= <-]. rewrite (invokePoetry_success_journal _ _ _ Hinv).
  split; [done|]. split; [done|]. split; [|done].
  rewrite invokePoetry_run in Hinv.
  destruct (create _ _) as [ps|e]; [|discriminate].
  destruct (exec ps _ _ _) as [[result|]|e]; [|discriminate..].
  destruct (_ && _); [discriminate|].
  destruct (stdout result) as [printed|]; [|discriminate].
  injection Hinv as <-. apply pythonPathOf_suffix.
Qed.

Lemma lookup_calls (cwd : jsstring) (ignoreErrors : bool) :
  Forall (lookupCall sc cwd)
         (Eff.journal (getInterpreterPathFromPoetry sc cwd ignoreErrors)).
Proof.
  rewrite getInterpreterPathFromPoetry_run.
  pose proof (invokePoetry_calls (js "env info -p") cwd) as Hcalls.
  destruct (fileExists _ _); [|by repeat constructor].
  destruct (Eff.outcome _) as [[q|]|e] eqn:Hinv; cbn [Eff.journal fst].
  - constructor; [by left|]. apply Forall_app. split; [done|].
    constructor; [|done]. right.
    by apply (invokePoetry_path_shape (js "env info -p") cwd).
  - constructor; [by left | done].
  - constructor; [by left | done].
Qed.

End LookupFacts.

(** X5. In a lookup the [ignoreErrors] flag changes nothing: both values
    give the same calls and the same result, and [traceError] is never
    called, because [invokePoetry] handles every failure itself. *)
Theorem getInterpreterPathFromPoetry_ignoreErrors_has_no_effect
    (sc : IServiceContainer) (cwd : jsstring) (ignoreErrors : bool) :
  PoetryService.getInterpreterPathFromPoetry sc cwd ignoreErrors
  = PoetryService.getInterpreterPathFromPoetry sc cwd (negb ignoreErrors)
  /\ count isTraceError
       (Eff.journal (PoetryService.getInterpreterPathFromPoetry sc cwd ignoreErrors))
     = 0.
Proof.
  split; [by rewrite !getInterpreterPathFromPoetry_run|].
  rewrite getInterpreterPathFromPoetry_run.
  pose proof (invokePoetry_calls sc (js "env info -p") cwd) as Hcalls.
  assert (Hzero : count isTraceError
                    (Eff.journal (PoetryService.invokePoetry sc
                                    (js "env info -p") cwd)) = 0).
  { induction Hcalls as [|ev j Hev _ IH]; [done|].
    rewrite count_cons, IH. by destruct ev. }
  destruct (fileExists _ _); [|done].
  destruct (Eff.outcome _) as [[q|]|e]; cbn [Eff.journal fst];
    rewrite ?count_cons, ?count_app, ?count_cons, ?count_nil, Hzero; done.
Qed.

(** X6. Whatever the collaborators answer, a lookup in [cwd] only checks
    the lock file of [cwd] and a path ending in ["bin/python"], only
    creates the process service for [cwd], only runs the configured
    executable with [env info -p] in [cwd], and shows nothing but
    warnings. *)
Theorem getInterpreterPathFromPoetry_only_makes_lookup_calls
    (sc : IServiceContainer) (cwd : jsstring) (ignoreErrors : bool) :
  Forall (lookupCall sc cwd)
         (Eff.journal
            (PoetryService.getInterpreterPathFromPoetry sc cwd ignoreErrors)).
Proof. apply lookup_calls. Qed.

(** X7. When poetry reports an environment whose ["bin/python"] is not on
    disk, the lookup returns [undefined] silently: after the process ran
    once and the path was checked, nothing is shown to the user and no
    error is logged or traced. *)
Theorem getInterpreterPathFromPoetry_stale_environment_is_silent
    (sc : IServiceContainer) (cwd : jsstring) (ignoreErrors : bool)
    (p : jsstring) :
  fileExists (fs sc) (lockFileOf cwd) = true ->
  Eff.outcome (PoetryService.invokePoetry sc (js "env info -p") cwd)
    = Resolved (Some p) ->
  fileExists (fs sc) p = false ->
  let run := PoetryService.getInterpreterPathFromPoetry sc cwd ignoreErrors in
  Eff.outcome run = Resolved None
  /\ Eff.journal run = foundJournal sc cwd p
  /\ count isErrorReport (Eff.journal run) = 0.
Proof.
  intros Hlock Hinv Hp run. subst run.
  rewrite getInterpreterPathFromPoetry_run, Hlock, Hinv.
  rewrite (invokePoetry_success_journal _ _ _ _ Hinv), Hp.
  by repeat split.
Qed.

Lemma getInterpreterPathFromPoetry_stale_environment_is_silent_witness :
  Eff.outcome (PoetryService.getInterpreterPathFromPoetry
                 Sample.stale Sample.projectDir false) = Resolved None.
Proof.
  assert (Hlock : fileExists (fs Sample.stale) (lockFileOf Sample.projectDir) = true)
    by by_computation.
  assert (Hinv : Eff.outcome (PoetryService.invokePoetry Sample.stale
                                (js "env info -p") Sample.projectDir)
                 = Resolved (Some Sample.venvPython)) by by_computation.
  assert (Hp : fileExists (fs Sample.stale) Sample.venvPython = false)
    by by_computation.
  exact (proj1 (getInterpreterPathFromPoetry_stale_environment_is_silent
                  Sample.stale Sample.projectDir false Sample.venvPython
                  Hlock Hinv Hp)).
Defined.

(* ===================================================================== *)
(** ** Further properties of detection *)
(* ===================================================================== *)

Section DetectionFacts.

Import PoetryService.

Variable sc : IServiceContainer.

Lemma lookup_has_no_resolve (cwd : jsstring) (ignoreErrors : bool) (value : bool) :
  ~ In (HasInterpretersResolve value)
       (Eff.journal (getInterpreterPathFromPoetry sc cwd ignoreErrors)).
Proof.
  intros Hin.
  pose proof (lookup_calls sc cwd ignoreErrors) as Hcalls.
  rewrite List.Forall_forall in Hcalls. exact (Hcalls _ Hin).
Qed.

Lemma lookup_has_no_information_call (cwd : jsstring) (ignoreErrors : bool)
    (p : jsstring) :
  ~ In (GetInterpreterInformation p)
       (Eff.journal (getInterpreterPathFromPoetry sc cwd ignoreErrors)).
Proof.
  intros Hin.
  pose proof (lookup_calls sc cwd ignoreErrors) as Hcalls.
  rewrite List.Forall_forall in Hcalls. exact (Hcalls _ Hin).
Qed.

(** [getInterpretersImplementation] once a working directory is found. *)
Lemma getInterpretersImplementation_run (resource : option Uri) (cwd : jsstring) :
  getPoetryWorkingDirectory sc resource = Some cwd ->
  truthy cwd = true ->
  getInterpretersImplementation sc resource =
    (Eff.journal (getInterpreterFromPoetry sc cwd),
     match Eff.outcome (getInterpreterFromPoetry sc cwd) with
     | Resolved (Some item) => Resolved [item]
     | _ => Resolved []
     end).
Proof.
  intros Hcwd Ht. unfold getInterpretersImplementation.
  rewrite Hcwd. cbn [truthy_opt]. rewrite Ht. unfold Eff.then_.
  destruct (getInterpreterFromPoetry sc cwd) as [j [[item|]|e]]; cbn;
    by rewrite ?app_nil_r.
Qed.

End DetectionFacts.

(** X8. For a resource outside every workspace folder the interpreters are
    those of the workspace root: the result and the calls are the ones
    made for no resource at all. *)
Theorem getInterpretersImplementation_outside_workspace_uses_root
    (sc : IServiceContainer) (resource : Uri) :
  getWorkspaceFolder (workspace sc) resource = None ->
  PoetryService.getInterpretersImplementation sc (Some resource)
  = PoetryService.getInterpretersImplementation sc None.
Proof.
  intros Hnone.
  unfold PoetryService.getInterpretersImplementation,
    PoetryService.getPoetryWorkingDirectory.
  by rewrite Hnone.
Qed.

Lemma getInterpretersImplementation_outside_workspace_uses_root_witness :
  PoetryService.getInterpretersImplementation Sample.healthy
    (Some (UriFile (js "/tmp/scratch.py")))
  = PoetryService.getInterpretersImplementation Sample.healthy None.
Proof.
  exact (getInterpretersImplementation_outside_workspace_uses_root
           Sample.healthy (UriFile (js "/tmp/scratch.py")) eq_refl).
Defined.

(** X9. [_hasInterpreters] is resolved (with [true], and once) exactly when
    [getInterpretersImplementation] reports an interpreter. *)
Theorem hasInterpreters_resolved_iff_interpreter_reported
    (sc : IServiceContainer) (resource : option Uri) :
  let run := PoetryService.getInterpretersImplementation sc resource in
  (In (HasInterpretersResolve true) (Eff.journal run)
   <-> exists item, Eff.outcome run = Resolved [item])
  /\ ~ In (HasInterpretersResolve false) (Eff.journal run)
  /\ count isHasInterpretersResolve (Eff.journal run) <= 1.
Proof.
  intros run. subst run.
  assert (Hlookup : forall cwd,
             count isHasInterpretersResolve
               (Eff.journal (PoetryService.getInterpreterPathFromPoetry sc cwd false))
             = 0).
  { intros cwd. pose proof (lookup_calls sc cwd false) as Hcalls.
    induction Hcalls as [|ev j Hev _ IH]; [done|].
    rewrite count_cons, IH. by destruct ev. }
  destruct (PoetryService.getPoetryWorkingDirectory sc resource) as [cwd|] eqn:Hcwd.
  - destruct (truthy cwd) eqn:Ht.
    + rewrite (getInterpretersImplementation_run sc resource cwd Hcwd Ht).
      rewrite getInterpreterFromPoetry_run.
      pose proof (lookup_has_no_resolve sc cwd false) as Hno.
      specialize (Hlookup cwd).
      destruct (Eff.outcome (PoetryService.getInterpreterPathFromPoetry _ _ _))
        as [[p|]|e].
      * pose proof (Hno true) as Hno1. pose proof (Hno false) as Hno2.
        destruct (getInterpreterInformation (helper sc) p) as [[d|]|e];
          cbn [Eff.journal Eff.outcome fst snd];
          rewrite ?count_app, ?count_cons, ?count_nil, Hlookup;
          cbn [isHasInterpretersResolve];
          (split; [|split; [|lia]]); rewrite ?in_app_iff; cbn [In];
          try (split; [intros _; by eexists | intros _; auto]);
          try (split; [| by intros [? [=]]]);
          intuition discriminate.
      * cbn [Eff.journal Eff.outcome fst snd]. rewrite Hlookup.
        split; [|split; [apply Hno | lia]].
        split; [intros H; by destruct (Hno _ H) | by intros [? [=]]].
      * cbn [Eff.journal Eff.outcome fst snd]. rewrite Hlookup.
        split; [|split; [apply Hno | lia]].
        split; [intros H; by destruct (Hno _ H) | by intros [? [=]]].
    + unfold PoetryService.getInterpretersImplementation.
      rewrite Hcwd. cbn [truthy_opt]. rewrite Ht. cbn.
      split; [|split; [tauto | lia]]. split; [done | by intros [? [=]]].
  - unfold PoetryService.getInterpretersImplementation. rewrite Hcwd. cbn.
    split; [|split; [tauto | lia]]. split; [done | by intros [? [=]]].
Qed.

(** X10. [getInterpreterFromPoetry] rejects exactly when the path was
    resolved and the interpreter-information lookup for it rejects, and
    then with that lookup's reason. *)
Theorem getInterpreterFromPoetry_rejects_iff_information_rejects
    (sc : IServiceContainer) (poetryCwd : jsstring) (reason : JsError) :
  Eff.outcome (PoetryService.getInterpreterFromPoetry sc poetryCwd)
    = Rejected reason
  <->
  exists interpreterPath,
    Eff.outcome (PoetryService.getInterpreterPathFromPoetry sc poetryCwd false)
      = Resolved (Some interpreterPath)
    /\ getInterpreterInformation (helper sc) interpreterPath = Rejected reason.
Proof.
  rewrite getInterpreterFromPoetry_run.
  destruct (getInterpreterPathFromPoetry_resolves sc poetryCwd false) as [v Hv].
  rewrite Hv. destruct v as [p|].
  - split.
    + destruct (getInterpreterInformation (helper sc) p) as [[d|]|e] eqn:Hinfo;
        try discriminate.
      intros [= <-]. by exists p.
    + intros (q & [= <-] & ->). reflexivity.
  - split; [discriminate | by intros (? & [=] & _)].
Qed.

(** X11. When the interpreter-information lookup rejects,
    [getInterpretersImplementation] resolves to the empty list and the
    rejection is dropped: after the five calls of the lookup and the
    request for the information, nothing is logged as an error, traced or
    shown. *)
Theorem information_failure_is_swallowed_silently
    (sc : IServiceContainer) (resource : option Uri) (cwd p : jsstring)
    (reason : JsError) :
  PoetryService.getPoetryWorkingDirectory sc resource = Some cwd ->
  cwd <> [] ->
  Eff.outcome (PoetryService.getInterpreterPathFromPoetry sc cwd false)
    = Resolved (Some p) ->
  getInterpreterInformation (helper sc) p = Rejected reason ->
  let run := PoetryService.getInterpretersImplementation sc resource in
  Eff.outcome run = Resolved []
  /\ Eff.journal run = foundJournal sc cwd p ++ [GetInterpreterInformation p]
  /\ count isErrorReport (Eff.journal run) = 0.
Proof.
  intros Hcwd Hne Hres Hinfo run. subst run.
  assert (Ht : truthy cwd = true) by by destruct cwd.
  rewrite (getInterpretersImplementation_run sc resource cwd Hcwd Ht).
  rewrite getInterpreterFromPoetry_run, Hres, Hinfo.
  destruct (getInterpreterPathFromPoetry_found sc cwd false p Hres)
    as (_ & _ & _ & ->).
  by repeat split.
Qed.

Lemma information_failure_is_swallowed_silently_witness :
  Eff.outcome (PoetryService.getInterpretersImplementation Sample.unreadable None)
  = Resolved [].
Proof.
  assert (Hne : Sample.projectDir <> []) by by_computation.
  assert (Hres : Eff.outcome (PoetryService.getInterpreterPathFromPoetry
                                Sample.unreadable Sample.projectDir false)
                 = Resolved (Some Sample.venvPython)) by by_computation.
  exact (proj1 (information_failure_is_swallowed_silently
                  Sample.unreadable None Sample.projectDir Sample.venvPython
                  (newError (js "cannot run python"))
                  eq_refl Hne Hres eq_refl)).
Defined.

(** X12. The interpreter helper is asked for information at most once per
    detection, and only about the path the lookup resolved, a file that
    exists in a project that has its lock file. *)
Theorem information_is_requested_only_for_the_resolved_path
    (sc : IServiceContainer) (poetryCwd : jsstring) :
  let run := PoetryService.getInterpreterFromPoetry sc poetryCwd in
  (forall p, In (GetInterpreterInformation p) (Eff.journal run) ->
     Eff.outcome (PoetryService.getInterpreterPathFromPoetry sc poetryCwd false)
       = Resolved (Some p)
     /\ fileExists (fs sc) p = true
     /\ fileExists (fs sc) (lockFileOf poetryCwd) = true)
  /\ count isInformationRequest (Eff.journal run) <= 1.
Proof.
  intros run. subst run. rewrite getInterpreterFromPoetry_run.
  assert (Hzero : count isInformationRequest
                    (Eff.journal (PoetryService.getInterpreterPathFromPoetry
                                    sc poetryCwd false)) = 0).
  { pose proof (lookup_calls sc poetryCwd false) as Hcalls.
    induction Hcalls as [|ev j Hev _ IH]; [done|].
    rewrite count_cons, IH. by destruct ev. }
  pose proof (lookup_has_no_information_call sc poetryCwd false) as Hno.
  destruct (Eff.outcome (PoetryService.getInterpreterPathFromPoetry _ _ _))
    as [[q|]|e] eqn:Hres.
  - destruct (getInterpreterPathFromPoetry_found sc poetryCwd false q Hres)
      as (Hlock & Hq & _ & _).
    destruct (getInterpreterInformation (helper sc) q) as [[d|]|e];
      cbn [Eff.journal fst]; rewrite ?count_app, ?count_cons, ?count_nil, Hzero;
      cbn [isInformationRequest];
      (split; [|lia]); intros p; rewrite in_app_iff; cbn [In];
      intros [H | H]; try (by destruct (Hno _ H));
      intuition (try discriminate; congruence).
  - cbn [Eff.journal fst]. rewrite Hzero. split; [|lia].
    intros p H. by destruct (Hno _ H).
  - cbn [Eff.journal fst]. rewrite Hzero. split; [|lia].
    intros p H. by destruct (Hno _ H).
Qed.

Lemma information_is_requested_only_for_the_resolved_path_witness :
  fileExists (fs Sample.healthy) Sample.venvPython = true.
Proof.
  assert (Hrun : Eff.journal (PoetryService.getInterpreterFromPoetry
                                Sample.healthy Sample.projectDir)
                 = foundJournal Sample.healthy Sample.projectDir Sample.venvPython
                   ++ [GetInterpreterInformation Sample.venvPython;
                       HasInterpretersResolve true])
    by by_computation.
  assert (Hin : In (GetInterpreterInformation Sample.venvPython)
                   (Eff.journal (PoetryService.getInterpreterFromPoetry
                                   Sample.healthy Sample.projectDir))).
  { rewrite Hrun. apply in_or_app. right. by left. }
  exact (proj1 (proj2 (proj1 (information_is_requested_only_for_the_resolved_path
                                Sample.healthy Sample.projectDir)
                             Sample.venvPython Hin))).
Defined.

(** X13. Every interpreter [getInterpretersImplementation] reports belongs
    to a non-empty working directory that holds the lock file; its [path]
    is a file that exists and ends in ["bin/python"], its [type] is
    Poetry and its [poetryWorkspaceFolder] is that working directory. *)
Theorem reported_interpreter_is_an_existing_poetry_environment
    (sc : IServiceContainer) (resource : option Uri) (item : PythonInterpreter) :
  Eff.outcome (PoetryService.getInterpretersImplementation sc resource)
    = Resolved [item] ->
  exists cwd p,
    PoetryService.getPoetryWorkingDirectory sc resource = Some cwd
    /\ cwd <> []
    /\ fileExists (fs sc) (lockFileOf cwd) = true
    /\ item !! "path" = Some (VString p)
    /\ fileExists (fs sc) p = true
    /\ endsWith p (js "bin/python")
    /\ hasType Poetry item
    /\ item !! "poetryWorkspaceFolder" = Some (VString cwd).
Proof.
  destruct (PoetryService.getPoetryWorkingDirectory sc resource) as [cwd|] eqn:Hcwd.
  - destruct (truthy cwd) eqn:Ht.
    + rewrite (getInterpretersImplementation_run sc resource cwd Hcwd Ht).
      rewrite getInterpreterFromPoetry_run.
      destruct (Eff.outcome (PoetryService.getInterpreterPathFromPoetry _ _ _))
        as [[p|]|e] eqn:Hres; [|discriminate..].
      destruct (getInterpreterPathFromPoetry_found sc cwd false p Hres)
        as (Hlock & Hp & Hend & _).
      destruct (getInterpreterInformation (helper sc) p) as [[d|]|e];
        [|discriminate..].
      cbn [Eff.outcome snd]. intros [= <-]. exists cwd, p.
      split; [done|]. split; [by destruct cwd|]. split; [done|].
      unfold hasType. by simplify_map_eq.
    + unfold PoetryService.getInterpretersImplementation.
      rewrite Hcwd. cbn [truthy_opt]. rewrite Ht. discriminate.
  - unfold PoetryService.getInterpretersImplementation. rewrite Hcwd.
    discriminate.
Qed.

Lemma reported_interpreter_is_an_existing_poetry_environment_witness :
  exists item : PythonInterpreter,
    hasType Poetry item /\ item !! "path" = Some (VString Sample.venvPython).
Proof.
  assert (Hrun : Eff.outcome (PoetryService.getInterpretersImplementation
                                Sample.healthy None)
                 = Resolved [<["poetryWorkspaceFolder" := VString Sample.projectDir]>
                               (<["type" := VKind Poetry]>
                                  (<["path" := VString Sample.venvPython]>
                                     Sample.details))]).
  { rewrite (getInterpretersImplementation_run Sample.healthy None
               Sample.projectDir eq_refl eq_refl).
    cbn [Eff.outcome snd]. by rewrite healthy_project_is_detected. }
  destruct (reported_interpreter_is_an_existing_poetry_environment
              Sample.healthy None _ Hrun)
    as (cwd & p & _ & _ & _ & Hpath & _ & _ & Htype & _).
  eexists. split; [exact Htype|]. by simplify_map_eq.
Defined.

(** X14. When the process service cannot be created, the executable is
    not started: the lookup checks the lock file, asks for the process
    service, reports the reason of the failure in one warning and returns
    [undefined]. *)
Theorem process_service_failure_starts_nothing
    (sc : IServiceContainer) (cwd : jsstring) (ignoreErrors : bool)
    (reason : JsError) :
  fileExists (fs sc) (lockFileOf cwd) = true ->
  create (processServiceFactory sc) (UriFile cwd) = Rejected reason ->
  let run := PoetryService.getInterpreterPathFromPoetry sc cwd ignoreErrors in
  Eff.outcome run = Resolved None
  /\ count isExec (Eff.journal run) = 0
  /\ count isWarningShown (Eff.journal run) = 1
  /\ In (ShowMessage
           (PoetryService.invokePoetryWarning (errorMessageText reason))
           MsgWarning)
        (Eff.journal run).
Proof.
  intros Hlock Hcreate run. subst run.
  rewrite getInterpreterPathFromPoetry_run, Hlock, invokePoetry_run, Hcreate.
  cbn [Eff.outcome Eff.journal fst snd].
  destruct (invokePoetryCatch_journal sc reason) as [m ->].
  split; [done|]. split; [done|]. split; [done|].
  do 4 right. by left.
Qed.

Lemma process_service_failure_starts_nothing_witness :
  count isExec
    (Eff.journal (PoetryService.getInterpreterPathFromPoetry
                    Sample.unstartable Sample.projectDir false)) = 0.
Proof.
  assert (Hlock : fileExists (fs Sample.unstartable)
                    (lockFileOf Sample.projectDir) = true) by by_computation.
  exact (proj1 (proj2 (process_service_failure_starts_nothing
                         Sample.unstartable Sample.projectDir false
                         (newError (js "no process service")) Hlock eq_refl))).
Defined.

(* ===================================================================== *)
(** ** Further properties of [isRelatedPoetryEnvironment] *)
(* ===================================================================== *)

(** X15. [isRelatedPoetryEnvironment] never rejects, and it answers [true]
    exactly when [pythonPath] contains the separator, the base name of
    [dir] and a hyphen, and the lookup in [dir] finds an interpreter. *)
Theorem isRelatedPoetryEnvironment_true_iff
    (sc : IServiceContainer) (dir pythonPath : jsstring) :
  exists related : bool,
    Eff.outcome (PoetryService.isRelatedPoetryEnvironment sc dir pythonPath)
      = Resolved related
    /\ (related = true <->
        contains pythonPath (envPrefix dir)
        /\ exists p,
             Eff.outcome (PoetryService.getInterpreterPathFromPoetry sc dir true)
             = Resolved (Some p)).
Proof.
  unfold PoetryService.isRelatedPoetryEnvironment. fold (envPrefix dir).
  destruct (indexOf pythonPath (envPrefix dir) =? -1)%Z eqn:Hidx.
  - apply Z.eqb_eq, indexOf_absent in Hidx.
    exists false. split; [done|]. split; [discriminate | by intros [? _]].
  - apply Z.eqb_neq, indexOf_found in Hidx.
    destruct (getInterpreterPathFromPoetry_resolves sc dir true) as [v Hv].
    pose proof (getInterpreterPathFromPoetry_truthy sc dir true) as Ht.
    destruct (PoetryService.getInterpreterPathFromPoetry sc dir true) as [j o].
    cbn in Hv, Ht. subst o. destruct v as [p|]; cbn.
    + rewrite (Ht p eq_refl). exists true. split; [done|]. split; [eauto | done].
    + exists false. split; [done|].
      split; [discriminate | by intros (_ & ? & [=])].
Qed.

(** X16. The check runs its lookup with [ignoreErrors] set, yet a failing
    executable is still reported: for a matching [pythonPath] in a project
    with a lock file, a tool failure makes the check answer [false] and
    show one warning. *)
Theorem isRelatedPoetryEnvironment_reports_tool_failure
    (sc : IServiceContainer) (dir pythonPath : jsstring)
    (ps : IProcessService) (error : JsError) :
  contains pythonPath (envPrefix dir) ->
  fileExists (fs sc) (lockFileOf dir) = true ->
  create (processServiceFactory sc) (UriFile dir) = Resolved ps ->
  ToolFailure (exec ps (PoetryService.executable sc) poetryArgs dir) error ->
  let run := PoetryService.isRelatedPoetryEnvironment sc dir pythonPath in
  Eff.outcome run = Resolved false
  /\ count isWarningShown (Eff.journal run) = 1
  /\ In (ShowMessage
           (PoetryService.invokePoetryWarning (errorMessageText error))
           MsgWarning)
        (Eff.journal run).
Proof.
  intros Hcontains Hlock Hcreate Hfail run. subst run.
  unfold PoetryService.isRelatedPoetryEnvironment. fold (envPrefix dir).
  destruct (indexOf pythonPath (envPrefix dir) =? -1)%Z eqn:Hidx.
  { apply Z.eqb_eq, indexOf_absent in Hidx. done. }
  rewrite getInterpreterPathFromPoetry_run, Hlock.
  destruct (invokePoetry_failure_run sc (js "env info -p") dir ps error
              Hcreate Hfail) as [m ->].
  cbn [Eff.outcome Eff.journal fst snd Eff.bind Eff.ret truthy_opt app].
  split; [done|]. split; [done|]. do 5 right. by left.
Qed.

Lemma isRelatedPoetryEnvironment_reports_tool_failure_witness :
  Eff.outcome (PoetryService.isRelatedPoetryEnvironment
                 Sample.missingTool Sample.projectDir Sample.venvPython)
  = Resolved false.
Proof.
  assert (Hcontains : contains Sample.venvPython (envPrefix Sample.projectDir))
    by (apply indexOf_found; by_computation).
  assert (Hlock : fileExists (fs Sample.missingTool)
                    (lockFileOf Sample.projectDir) = true) by by_computation.
  exact (proj1 (isRelatedPoetryEnvironment_reports_tool_failure
                  Sample.missingTool Sample.projectDir Sample.venvPython
                  (Sample.processReturning Sample.poetryMissing) _
                  Hcontains Hlock eq_refl
                  (exec_rejects (newError (js "spawn poetry ENOENT"))))).
Defined.

(* ===================================================================== *)
(** ** Further properties of the activation-command provider *)
(* ===================================================================== *)

(** X17. The provider catches nothing: when the interpreter service
    rejects, [getActivationCommands] and
    [getActivationCommandsForInterpreter] reject with the same reason,
    after that single call. *)
Theorem provider_passes_rejections_on
    (TerminalShellType : Type) (fileToCommandArgument : jsstring -> jsstring)
    (interpreterService : IInterpreterService) (poetryService : IPoetryService)
    (resource : option Uri) (pythonPath : jsstring) (shell : TerminalShellType)
    (reason : JsError) :
  (getActiveInterpreter interpreterService resource = Rejected reason ->
     PoetryActivationCommandProvider.getActivationCommands
       TerminalShellType fileToCommandArgument interpreterService
       poetryService resource shell
     = ([GetActiveInterpreter resource], Rejected reason))
  /\ (getInterpreterDetails interpreterService pythonPath = Rejected reason ->
      PoetryActivationCommandProvider.getActivationCommandsForInterpreter
        TerminalShellType fileToCommandArgument interpreterService
        poetryService pythonPath shell
      = ([GetInterpreterDetails pythonPath], Rejected reason)).
Proof.
  unfold PoetryActivationCommandProvider.getActivationCommands,
    PoetryActivationCommandProvider.getActivationCommandsForInterpreter, Eff.call.
  split; by intros ->.
Qed.

Lemma provider_passes_rejections_on_witness :
  Eff.outcome
    (PoetryActivationCommandProvider.getActivationCommands
       nat (fun s => s) (Sample.rejecting (newError (js "no interpreter service")))
       {| executable := js "poetry" |} None 0)
  = Rejected (newError (js "no interpreter service")).
Proof.
  exact (f_equal snd
           (proj1 (provider_passes_rejections_on
                     nat (fun s => s)
                     (Sample.rejecting (newError (js "no interpreter service")))
                     {| executable := js "poetry" |} None [] 0
                     (newError (js "no interpreter service")))
                  eq_refl)).
Defined.

(** X18. Detection and activation fit together: when the interpreter
    service hands back an interpreter that [getInterpretersImplementation]
    reported, both provider methods return the one command made of the
    service's executable, quoted, and [" shell"]. *)
Theorem reported_interpreter_gets_activation_command
    (TerminalShellType : Type) (fileToCommandArgument : jsstring -> jsstring)
    (sc : IServiceContainer) (interpreterService : IInterpreterService)
    (detected resource : option Uri) (pythonPath : jsstring)
    (shell : TerminalShellType) (item : PythonInterpreter) :
  Eff.outcome (PoetryService.getInterpretersImplementation sc detected)
    = Resolved [item] ->
  let command :=
    shellCommand fileToCommandArgument (poetryPath (configService sc)) in
  (getActiveInterpreter interpreterService resource = Resolved (Some item) ->
     Eff.outcome
       (PoetryActivationCommandProvider.getActivationCommands
          TerminalShellType fileToCommandArgument interpreterService
          (asPoetryService sc) resource shell)
     = Resolved (Some [command]))
  /\ (getInterpreterDetails interpreterService pythonPath = Resolved (Some item) ->
      Eff.outcome
        (PoetryActivationCommandProvider.getActivationCommandsForInterpreter
           TerminalShellType fileToCommandArgument interpreterService
           (asPoetryService sc) pythonPath shell)
      = Resolved (Some [command])).
Proof.
  intros Hitem command. subst command.
  assert (Htype : PoetryActivationCommandProvider.notPoetry (Some item) = false).
  { apply notPoetry_false. exists item. split; [done|].
    destruct (PoetryService.getPoetryWorkingDirectory sc detected)
      as [cwd|] eqn:Hcwd.
    - destruct (truthy cwd) eqn:Ht.
      + rewrite (getInterpretersImplementation_run sc detected cwd Hcwd Ht) in Hitem.
        rewrite getInterpreterFromPoetry_run in Hitem.
        destruct (Eff.outcome (PoetryService.getInterpreterPathFromPoetry _ _ _))
          as [[p|]|e]; [|discriminate..].
        destruct (getInterpreterInformation (helper sc) p) as [[d|]|e];
          [|discriminate..].
        cbn [Eff.outcome snd] in Hitem. injection Hitem as <-.
        unfold hasType. by simplify_map_eq.
      + unfold PoetryService.getInterpretersImplementation in Hitem.
        rewrite Hcwd in Hitem. cbn [truthy_opt] in Hitem.
        rewrite Ht in Hitem. discriminate.
    - unfold PoetryService.getInterpretersImplementation in Hitem.
      rewrite Hcwd in Hitem. discriminate. }
  unfold PoetryActivationCommandProvider.getActivationCommands,
    PoetryActivationCommandProvider.getActivationCommandsForInterpreter, Eff.call.
  split; intros ->; cbn [Eff.bind]; by rewrite Htype.
Qed.

Lemma reported_interpreter_gets_activation_command_witness :
  exists item : PythonInterpreter,
    Eff.outcome
      (PoetryActivationCommandProvider.getActivationCommands
         nat (fun s => s) (Sample.interpreters (Some item))
         (asPoetryService Sample.healthy) None 0)
    = Resolved (Some [js "poetry shell"]).
Proof.
  assert (Hrun : Eff.outcome (PoetryService.getInterpretersImplementation
                                Sample.healthy None)
                 = Resolved [<["poetryWorkspaceFolder" := VString Sample.projectDir]>
                               (<["type" := VKind Poetry]>
                                  (<["path" := VString Sample.venvPython]>
                                     Sample.details))]).
  { rewrite (getInterpretersImplementation_run Sample.healthy None
               Sample.projectDir eq_refl eq_refl).
    cbn [Eff.outcome snd]. by rewrite healthy_project_is_detected. }
  eexists.
  exact (proj1 (reported_interpreter_gets_activation_command
                  nat (fun s => s) Sample.healthy
                  (Sample.interpreters (Some _)) None None [] 0 _ Hrun)
               eq_refl).
Defined.

(** X19. A lookup that finds an interpreter made exactly five calls, in
    this order: the lock-file check, the creation of the process service,
    one start of the executable, the log line with the path, the check of
    the path.  Nothing is shown to the user. *)
Theorem successful_lookup_makes_exactly_five_calls
    (sc : IServiceContainer) (cwd : jsstring) (ignoreErrors : bool)
    (p : jsstring) :
  let run := PoetryService.getInterpreterPathFromPoetry sc cwd ignoreErrors in
  Eff.outcome run = Resolved (Some p) ->
  Eff.journal run = foundJournal sc cwd p
  /\ count isExec (Eff.journal run) = 1
  /\ count isShowMessage (Eff.journal run) = 0.
Proof.
  intros run Hfound. subst run.
  destruct (getInterpreterPathFromPoetry_found sc cwd ignoreErrors p Hfound)
    as (_ & _ & _ & ->).
  by repeat split.
Qed.

Lemma successful_lookup_makes_exactly_five_calls_witness :
  Eff.journal (PoetryService.getInterpreterPathFromPoetry
                 Sample.healthy Sample.projectDir false)
  = foundJournal Sample.healthy Sample.projectDir Sample.venvPython.
Proof.
  assert (Hres : Eff.outcome (PoetryService.getInterpreterPathFromPoetry
                                Sample.healthy Sample.projectDir false)
                 = Resolved (Some Sample.venvPython)) by by_computation.
  exact (proj1 (successful_lookup_makes_exactly_five_calls
                  Sample.healthy Sample.projectDir false Sample.venvPython Hres)).
Defined.
